(** * Streamlit financial dashboard: a shallow embedding of [finance_project.py]

    The script resolves an API key, lets the user pick an Alpha Vantage
    endpoint, fetches a JSON document and reshapes it with pandas before
    handing it to Streamlit widgets.  This development models

    - the values the script manipulates: parsed JSON (Python [dict]s keep
      their insertion order, so objects are association lists), pandas
      frames (column-major, labelled rows and columns) and the calls made
      to Streamlit (a trace);
    - the Python and pandas operations the script calls: [str.split],
      [dict.get], [in], truthiness, [DataFrame.from_dict(orient='index')],
      [DataFrame([d]).T], the [columns] setter, [DataFrame.apply] with
      [pd.to_numeric(errors='coerce')], [head] and column selection;
    - the API-key prologue (lines 6-20), the fetch helper (lines 67-80) and
      the TIME_SERIES_DAILY, GLOBAL_QUOTE, SMA and RSI branches.

    Numbers are modelled by their exact decimal value in [Q]; the binary
    rounding of float64 is not represented. *)

From Stdlib Require Import List String Ascii Bool Arith ZArith QArith Qcanon Lia.
From Stdlib Require Import DecimalString DecimalN.
Import ListNotations.

Local Close Scope Qc_scope.
Local Close Scope Q_scope.
Local Open Scope string_scope.
Local Open Scope list_scope.

(** ** Python values *)

(** A parsed JSON document, as [req.json()] returns it. [JNull] is Python's
    [None]; an object lists its items in insertion order. *)
#[warnings="-register-all"]
Inductive json : Type :=
| JNull
| JBool (b : bool)
| JNum (q : Q)
| JStr (s : string)
| JArr (items : list json)
| JObj (fields : list (string * json)).

(** Exceptions the modelled code can raise. *)
Inductive exn : Type :=
| IndexError
| KeyError (key : string)
| TypeError
| AttributeError
| ValueError
| ImportError
| StreamlitAPIException
| RequestException (err : string)
| OtherException (name : string).

(** The outcome of running a piece of the script: a value, an exception
    that propagates, the script halted by [st.stop()], or a library path
    this development does not describe. *)
Inductive result (A : Type) : Type :=
| Ok (a : A)
| Raise (e : exn)
| Stop
| Unmodelled.

Arguments Ok {A} a.
Arguments Raise {A} e.
Arguments Stop {A}.
Arguments Unmodelled {A}.

Definition rbind {A B} (r : result A) (f : A -> result B) : result B :=
  match r with
  | Ok a => f a
  | Raise e => Raise e
  | Stop => Stop
  | Unmodelled => Unmodelled
  end.

Declare Scope py_scope.
Delimit Scope py_scope with py.
Notation "x <- r ;; k" := (rbind r (fun x => k))
  (at level 61, r at next level, right associativity) : py_scope.

(** [mapM f xs]: a list comprehension whose body can raise; the first
    exception wins. *)
Fixpoint mapM {A B} (f : A -> result B) (xs : list A) : result (list B) :=
  match xs with
  | [] => Ok []
  | x :: xs' =>
      (y <- f x ;; ys <- mapM f xs' ;; Ok (y :: ys))%py
  end.

(** Python truthiness ([if raw_data:]). *)
Definition truthy (v : json) : bool :=
  match v with
  | JNull => false
  | JBool b => b
  | JNum q => negb (Qnum q =? 0)%Z
  | JStr s => negb (String.eqb s EmptyString)
  | JArr items => match items with [] => false | _ => true end
  | JObj fields => match fields with [] => false | _ => true end
  end.

(** *** Ordered dictionaries *)

Section Dict.
Context {V : Type}.

Fixpoint lookup (k : string) (d : list (string * V)) : option V :=
  match d with
  | [] => None
  | (k', v) :: d' => if String.eqb k k' then Some v else lookup k d'
  end.

Definition keys (d : list (string * V)) : list string := map fst d.

(** [d[k] = v]: an existing key keeps its place, a new one goes last. *)
Fixpoint setitem (d : list (string * V)) (k : string) (v : V)
  : list (string * V) :=
  match d with
  | [] => [(k, v)]
  | (k', v') :: d' =>
      if String.eqb k k' then (k', v) :: d' else (k', v') :: setitem d' k v
  end.

End Dict.

Definition mem (k : string) (l : list string) : bool :=
  existsb (String.eqb k) l.

(** *** Strings *)

(** [occurs sub s]: [sub in s] for strings. *)
Fixpoint occurs (sub s : string) : bool :=
  prefix sub s ||
  match s with
  | EmptyString => false
  | String _ s' => occurs sub s'
  end.

(** The pieces of [s] between the occurrences of [sep], scanning from the
    left; [skip] counts the characters of a matched separator still to be
    passed over. *)
Fixpoint split_from (sep : string) (skip : nat) (s : string) : list string :=
  match s with
  | EmptyString => [EmptyString]
  | String c s' =>
      match skip with
      | S n => split_from sep n s'
      | O =>
          if prefix sep s
          then EmptyString :: split_from sep (String.length sep - 1) s'
          else match split_from sep 0 s' with
               | p :: ps => String c p :: ps
               | [] => [String c EmptyString]
               end
      end
  end.

(** [s.split(sep)]; Python refuses an empty separator. *)
Definition str_split (sep s : string) : result (list string) :=
  match sep with
  | EmptyString => Raise ValueError
  | _ => Ok (split_from sep 0 s)
  end.

(** [s.upper()] on ASCII letters. *)
Definition upper_char (c : ascii) : ascii :=
  let n := nat_of_ascii c in
  if ((97 <=? n) && (n <=? 122))%nat then ascii_of_nat (n - 32) else c.

Fixpoint upper (s : string) : string :=
  match s with
  | EmptyString => EmptyString
  | String c s' => String (upper_char c) (upper s')
  end.

(** [x in v] for a string [x]: key membership in a dict, element
    membership in a list, substring of a string; other values are not
    iterable. *)
Definition contains (v : json) (x : string) : result bool :=
  match v with
  | JObj fields => Ok (mem x (keys fields))
  | JArr items =>
      Ok (existsb (fun e => match e with
                            | JStr s => String.eqb x s
                            | _ => false
                            end) items)
  | JStr s => Ok (occurs x s)
  | _ => Raise TypeError
  end.

(** [v[k]] for a string [k]. *)
Definition getitem (v : json) (k : string) : result json :=
  match v with
  | JObj fields =>
      match lookup k fields with
      | Some x => Ok x
      | None => Raise (KeyError k)
      end
  | _ => Raise TypeError
  end.

(** [v.get(k, default)]: only dicts have the method. *)
Definition get (v : json) (k : string) (default : json) : result json :=
  match v with
  | JObj fields =>
      match lookup k fields with
      | Some x => Ok x
      | None => Ok default
      end
  | _ => Raise AttributeError
  end.

(** ** Numbers in cells *)

(** [10^k] as a denominator. *)
Fixpoint pow10 (k : nat) : positive :=
  match k with
  | O => 1%positive
  | S k' => (10 * pow10 k')%positive
  end.

(** The text before and after the first ["."] of [s]; the second part is
    [None] when [s] has no point. *)
Fixpoint cut_point (s : string) : string * option string :=
  match s with
  | EmptyString => (EmptyString, None)
  | String c s' =>
      if Ascii.eqb c "."%char then (EmptyString, Some s')
      else let (a, b) := cut_point s' in (String c a, b)
  end.

(** The value of an unsigned decimal literal [ip.fp] (either part may be
    empty, not both): [None] when a character is not a digit. *)
Definition unsigned_value (ip fp : string) : option Q :=
  match NilEmpty.uint_of_string ip, NilEmpty.uint_of_string fp with
  | Some i, Some f =>
      if (String.length ip + String.length fp =? 0)%nat then None
      else
        let scale := pow10 (String.length fp) in
        Some (Qred (Z.of_N (N.of_uint i * Npos scale + N.of_uint f) # scale))
  | _, _ => None
  end.

Definition unsigned_literal (s : string) : option Q :=
  match cut_point s with
  | (ip, Some fp) => unsigned_value ip fp
  | (ip, None) => unsigned_value ip EmptyString
  end.

(** The number a string denotes, for plain decimal literals: an optional
    sign, digits, an optional point and digits.  This is the number format
    of the API's payloads (["100.5"], ["150.00"], ["-3"]).  pandas' parser
    also reads an exponent part, surrounding blanks and the spellings of
    infinity; those are outside this fragment and answered [None] here, and
    no statement below is about them. *)
Definition to_double (s : string) : option Q :=
  match s with
  | String "-" r => option_map Qopp (unsigned_literal r)
  | String "+" r => unsigned_literal r
  | _ => unsigned_literal s
  end.

(** ** pandas frames *)

(** Row and column labels: strings from JSON keys, integers for the
    positional labels pandas makes up. *)
Inductive label : Type :=
| LStr (s : string)
| LInt (n : Z).

(** A cell: a Python object as parsed, a number, or the missing marker
    ([NaN]). *)
Inductive cell : Type :=
| Raw (v : json)
| Num (q : Q)
| NaN.

(** A frame stores one list of cells per column, each as long as [index]. *)
Record DataFrame : Type := mkFrame {
  index : list label;
  columns : list label;
  data : list (list cell)
}.

Definition empty_frame : DataFrame := mkFrame [] [] [].

(** [pd.to_numeric(..., errors='coerce')] on one cell: a string that does
    not parse and [None] become [NaN]; nothing raises. *)
Definition to_numeric (c : cell) : cell :=
  match c with
  | Raw (JStr s) =>
      match to_double s with
      | Some q => Num q
      | None => NaN
      end
  | Raw (JNum q) => Num q
  | Raw (JBool b) => Num (if b then 1%Q else 0%Q)
  | Raw JNull => NaN
  | Raw (JArr _) => NaN
  | Raw (JObj _) => NaN
  | Num q => Num q
  | NaN => NaN
  end.

(** [df.apply(pd.to_numeric, errors='coerce')]: column by column. *)
Definition apply_to_numeric (df : DataFrame) : DataFrame :=
  mkFrame (index df) (columns df) (map (map to_numeric) (data df)).

(** [df.columns = new]: the number of labels must match. *)
Definition set_columns (df : DataFrame) (new : list label) : result DataFrame :=
  if (List.length new =? List.length (columns df))%nat
  then Ok (mkFrame (index df) new (data df))
  else Raise ValueError.

(** [df.head(n)]. *)
Definition head (n : nat) (df : DataFrame) : DataFrame :=
  mkFrame (firstn n (index df)) (columns df) (map (firstn n) (data df)).

Definition label_is (name : string) (l : label) : bool :=
  match l with
  | LStr s => String.eqb name s
  | LInt _ => false
  end.

(** [df[name]]: the column (every column, when the label is repeated) of
    that name, over all rows; [KeyError] when there is none. *)
Definition select (df : DataFrame) (name : string) : result DataFrame :=
  match filter (fun cd => label_is name (fst cd))
               (combine (columns df) (data df)) with
  | [] => Raise (KeyError name)
  | cols => Ok (mkFrame (index df) (map fst cols) (map snd cols))
  end.

(** [df.T]. *)
Definition transpose (df : DataFrame) : DataFrame :=
  mkFrame (columns df) (index df)
          (map (fun i => map (fun col => nth i col NaN) (data df))
               (seq 0 (List.length (index df)))).

(** *** [DataFrame.from_dict(data, orient='index')] *)

(** pandas' [_from_nested_dict]: [new_data[col][index] = v] for every row
    [index] and every item [(col, v)] of it, on a [defaultdict(dict)]. *)
Definition nested_setitem (new_data : list (string * list (string * json)))
           (col idx : string) (v : json) : list (string * list (string * json)) :=
  let inner := match lookup col new_data with
               | Some d => d
               | None => []
               end in
  setitem new_data col (setitem inner idx v).

Definition add_row (new_data : list (string * list (string * json)))
           (row : string * list (string * json))
  : list (string * list (string * json)) :=
  fold_left (fun nd cv => nested_setitem nd (fst cv) (fst row) (snd cv))
            (snd row) new_data.

Definition from_nested_dict (rows : list (string * list (string * json)))
  : list (string * list (string * json)) :=
  fold_left add_row rows [].

(** The row index of a dict of dicts: the keys of the inner dicts, each
    once, in the order first met going through the columns
    ([union_indexes(..., sort=False)]). *)
Definition unique_extend (seen l : list string) : list string :=
  fold_left (fun acc x => if mem x acc then acc else acc ++ [x]) l seen.

Definition union_indexes (ls : list (list string)) : list string :=
  fold_left unique_extend ls [].

(** [DataFrame(new_data)] for a dict of dicts: one column per key, every
    column reindexed on the union of the row keys, [NaN] where a row has no
    value. *)
Definition frame_of_columns (new_data : list (string * list (string * json)))
  : DataFrame :=
  let idx := union_indexes (map (fun cd => keys (snd cd)) new_data) in
  mkFrame (map LStr idx)
          (map LStr (keys new_data))
          (map (fun cd =>
                  map (fun i => match lookup i (snd cd) with
                                | Some v => Raw v
                                | None => NaN
                                end) idx)
               new_data).

(** [s.items()] on a row of the payload. *)
Definition items (row : string * json) : result (string * list (string * json)) :=
  match snd row with
  | JObj fields => Ok (fst row, fields)
  | _ => Raise AttributeError
  end.

(** [pd.DataFrame.from_dict(v, orient='index')].  pandas takes [len(v)],
    looks at the first value and, when it is a dict, transposes the nested
    dict; a dict whose first value is not a dict takes the positional path,
    which is not described here. *)
Definition from_dict_index (v : json) : result DataFrame :=
  match v with
  | JObj [] => Ok empty_frame
  | JObj (((_, JObj _) :: _) as fields) =>
      (rows <- mapM items fields ;;
       Ok (frame_of_columns (from_nested_dict rows)))%py
  | JObj _ => Unmodelled
  | JArr [] => Ok empty_frame
  | JArr _ => Raise AttributeError
  | JStr EmptyString => Raise ValueError
  | JStr _ => Raise AttributeError
  | JNull | JBool _ | JNum _ => Raise TypeError
  end.

(** [pd.DataFrame([v])] for a dict [v]: one row labelled [0], one column
    per key.  Other values take pandas' positional paths, not described
    here. *)
Definition frame_of_record (v : json) : result DataFrame :=
  match v with
  | JObj fields =>
      Ok (mkFrame [LInt 0] (map LStr (keys fields))
                  (map (fun kv => [Raw (snd kv)]) fields))
  | _ => Unmodelled
  end.

(** ** The script *)

(** The column rename of the TIME_SERIES_DAILY branch (line 102):
    [c.split('. ')[1]].  A label that is not a string has no [split]; a
    name without the separator has no second piece. *)
Definition rename_column (c : label) : result label :=
  match c with
  | LStr s =>
      (pieces <- str_split ". " s ;;
       match nth_error pieces 1 with
       | Some p => Ok (LStr p)
       | None => Raise IndexError
       end)%py
  | LInt _ => Raise AttributeError
  end.

(** [[c.split('. ')[1] for c in cols]]. *)
Definition rename_columns (cols : list label) : result (list label) :=
  mapM rename_column cols.

(** Lines 98-103: the frame of the TIME_SERIES_DAILY branch. *)
Definition time_series_daily_frame (time_series : json) : result DataFrame :=
  (df <- from_dict_index time_series ;;
   new <- rename_columns (columns df) ;;
   df <- set_columns df new ;;
   Ok (apply_to_numeric df))%py.

(** Lines 166-169 and 195-198: the frame of an indicator branch. *)
Definition indicator_frame (the_endpoint : string) (ts : json)
  : result DataFrame :=
  (df <- from_dict_index ts ;;
   df <- set_columns df [LStr the_endpoint] ;;
   Ok (apply_to_numeric df))%py.

(** Lines 125-126: the frame of the GLOBAL_QUOTE branch. *)
Definition global_quote_frame (quote : json) : result DataFrame :=
  (df <- frame_of_record quote ;;
   set_columns (transpose df) [LStr "Value"])%py.

(** *** Calls to Streamlit *)

Inductive st_call : Type :=
| st_title (body : string)
| st_markdown (body : string)
| st_sidebar_header (body : string)
| st_subheader (body : string)
| st_caption (body : string)
| st_info (body : string)
| st_warning (body : string)
| st_error (body : string)
| st_spinner (text : string)
| st_json (v : json)
| st_dataframe (df : DataFrame)
| st_table (df : DataFrame)
| st_line_chart (df : DataFrame).

(** A run of script code: the Streamlit calls made, in order, and how the
    run ended. *)
Definition ui (A : Type) : Type := (list st_call * result A)%type.

Definition ui_ret {A} (a : A) : ui A := ([], Ok a).

Definition ui_bind {A B} (m : ui A) (f : A -> ui B) : ui B :=
  match snd m with
  | Ok a => (fst m ++ fst (f a), snd (f a))
  | Raise e => (fst m, Raise e)
  | Stop => (fst m, Stop)
  | Unmodelled => (fst m, Unmodelled)
  end.

Definition call (c : st_call) : ui unit := ([c], Ok tt).

(** A computation that makes no call. *)
Definition eval {A} (r : result A) : ui A := ([], r).


Declare Scope ui_scope.
Delimit Scope ui_scope with ui.
Notation "x <- m ;; k" := (ui_bind m (fun x => k))
  (at level 61, m at next level, right associativity) : ui_scope.
Notation "m ;; k" := (ui_bind m (fun _ => k))
  (at level 61, right associativity) : ui_scope.

(** *** The API key (lines 6-20) *)

(** What evaluating a key source does: it yields the key or raises. *)
Inductive attempt (A : Type) : Type :=
| Yields (a : A)
| Fails (e : exn).

Arguments Yields {A} a.
Arguments Fails {A} e.






(** *** Fetching (lines 67-80) *)

(** [requests.get(url)], [raise_for_status()] and [json()] together yield
    the parsed body or raise. A [RequestException] is reported and turned
    into [None]. *)
Definition fetch_alpha_vantage_data (requests_get : string -> attempt json)
           (my_url spin_text : string) : ui json :=
  (call (st_spinner ("Working on it... " ++ spin_text)) ;;
   match requests_get my_url with
   | Yields data_json => ui_ret data_json
   | Fails (RequestException err) =>
       call (st_error ("Ouch! An error happened while fetching data: " ++ err)) ;;
       ui_ret JNull
   | Fails e => eval (Raise e)
   end)%ui.

(** *** Endpoint logic *)

(** Lines 94-112. *)
Definition show_time_series_daily (raw_data : json) : ui unit :=
  if truthy raw_data then
    (present <- eval (contains raw_data "Time Series (Daily)") ;;
     if (present : bool) then
       time_series <- eval (getitem raw_data "Time Series (Daily)") ;;
       df <- eval (time_series_daily_frame time_series) ;;
       call (st_dataframe (head 20 df)) ;;
       close <- eval (select df "close") ;;
       call (st_line_chart close)
     else
       call (st_warning "Data structure was weird. Maybe the symbol is wrong?") ;;
       call (st_json raw_data))%ui
  else ui_ret tt.

(** Lines 121-130. *)
Definition show_global_quote (data : json) : ui unit :=
  if truthy data then
    (quote <- eval (get data "Global Quote" (JObj [])) ;;
     if truthy quote then
       df <- eval (global_quote_frame quote) ;;
       call (st_table df)
     else
       call (st_error "Could not fetch quote. Check symbol.") ;;
       call (st_json data))%ui
  else ui_ret tt.

(** Lines 161-176 and 190-205: the SMA and RSI branches differ in the
    endpoint name and the closing caption. *)
Definition show_indicator (the_endpoint caption : string) (data : json)
  : ui unit :=
  if truthy data then
    (ts <- eval (get data ("Technical Analysis: " ++ the_endpoint) (JObj [])) ;;
     if truthy ts then
       df <- eval (indicator_frame the_endpoint ts) ;;
       call (st_dataframe (head 20 df)) ;;
       call (st_line_chart df) ;;
       call (st_caption caption)
     else
       call (st_error ("Could not calculate " ++ the_endpoint
                       ++ ". Check parameters.")) ;;
       call (st_json data))%ui
  else ui_ret tt.

(** [f"{n}"] for a non-negative integer. *)
Definition format_int (n : N) : string :=
  NilZero.string_of_uint (N.to_uint n).

Definition sma_caption (time_period : N) : string :=
  "The chart shows the " ++ format_int time_period
  ++ "-day Simple Moving Average.".

Definition rsi_caption : string :=
  "RSI values typically range from 0 to 100. Values below 30 suggest the asset might be **oversold**, and values above 70 suggest it might be **overbought**.".

Definition show_sma (time_period : N) (data : json) : ui unit :=
  show_indicator "SMA" (sma_caption time_period) data.

Definition show_rsi (data : json) : ui unit :=
  show_indicator "RSI" rsi_caption data.

(** *** The page (lines 46-63 and 83-237) *)

(** What the user set in the sidebar: the endpoint picked, the text typed
    in the symbol box, and the indicator controls. *)
Record sidebar : Type := mkSidebar {
  the_endpoint : string;
  text_input : string;
  interval : string;
  time_period : N;
  series_type : string
}.

Definition query : string := "https://www.alphavantage.co/query?function=".

(** Lines 85-112. *)
Definition time_series_daily (requests_get : string -> attempt json)
           (w : sidebar) (api_key : string) : ui unit :=
  let stock_sym := upper (text_input w) in
  let size_opt := "compact" in
  let url_str := (query ++ "TIME_SERIES_DAILY&symbol=" ++ stock_sym
                  ++ "&outputsize=" ++ size_opt ++ "&apikey=" ++ api_key)%string in
  (call (st_subheader ("Stock Price History: **" ++ the_endpoint w ++ "**")) ;;
   raw_data <- fetch_alpha_vantage_data requests_get url_str
                 ("Getting daily prices for " ++ stock_sym) ;;
   show_time_series_daily raw_data)%ui.

(** Lines 114-130. *)
Definition global_quote (requests_get : string -> attempt json)
           (w : sidebar) (api_key : string) : ui unit :=
  let stock_sym := upper (text_input w) in
  let url := (query ++ "GLOBAL_QUOTE&symbol=" ++ stock_sym
              ++ "&apikey=" ++ api_key)%string in
  (call (st_subheader ("Current Quote: **" ++ the_endpoint w ++ "**")) ;;
   data <- fetch_alpha_vantage_data requests_get url
             ("Fetching real-time quote for " ++ stock_sym) ;;
   show_global_quote data)%ui.

Definition indicator_url (function : string) (w : sidebar)
           (sym api_key : string) : string :=
  (query ++ function ++ "&symbol=" ++ sym
   ++ "&interval=" ++ interval w
   ++ "&time_period=" ++ format_int (time_period w)
   ++ "&series_type=" ++ series_type w ++ "&apikey=" ++ api_key)%string.

(** Lines 149-176. *)
Definition sma (requests_get : string -> attempt json)
           (w : sidebar) (api_key : string) : ui unit :=
  let sym := upper (text_input w) in
  (call (st_subheader ("Technical Indicator: **" ++ the_endpoint w
                       ++ "** (Simple Moving Average)")) ;;
   data <- fetch_alpha_vantage_data requests_get
             (indicator_url "SMA" w sym api_key)
             ("Calculating " ++ format_int (time_period w)
              ++ "-period SMA for " ++ sym) ;;
   show_indicator (the_endpoint w) (sma_caption (time_period w)) data)%ui.

(** Lines 178-205. *)
Definition rsi (requests_get : string -> attempt json)
           (w : sidebar) (api_key : string) : ui unit :=
  let sym := upper (text_input w) in
  (call (st_subheader ("Technical Indicator: **" ++ the_endpoint w
                       ++ "** (Relative Strength Index)")) ;;
   data <- fetch_alpha_vantage_data requests_get
             (indicator_url "RSI" w sym api_key)
             ("Calculating " ++ format_int (time_period w)
              ++ "-period RSI for " ++ sym) ;;
   show_indicator (the_endpoint w) rsi_caption data)%ui.




(** ** Vocabulary of the statements: predicates and sample payloads *)

Definition colliding_payload : json :=
  JObj [("2024-01-01", JObj [("a. x", JStr "1"); ("b. x", JStr "2")])].

Definition close_payload : json :=
  JObj [("2024-01-01", JObj [("4. close", JStr "100.5")])].

Definition close_frame : DataFrame :=
  mkFrame [LStr "2024-01-01"] [LStr "close"] [[Num (201 # 2)]].

Definition daily_warning : list st_call :=
  [st_warning "Data structure was weird. Maybe the symbol is wrong?"].

Definition quote_error : list st_call :=
  [st_error "Could not fetch quote. Check symbol."].

Definition indicator_error (the_endpoint : string) : list st_call :=
  [st_error ("Could not calculate " ++ the_endpoint ++ ". Check parameters.")].

(** The container of a response: absent, or present and empty. *)
Definition absent (k : string) (fields : list (string * json)) : Prop :=
  lookup k fields = None.

Definition empty_object (k : string) (fields : list (string * json)) : Prop :=
  lookup k fields = Some (JObj []).

Definition error_payload : json :=
  JObj [("Error Message", JStr "invalid symbol")].

Definition quote_payload : json :=
  JObj [("Global Quote", JObj [("05. price", JStr "150.00")])].

Definition offline : string -> attempt json :=
  fun _ => Fails (RequestException "offline").

Definition ibm_daily : sidebar :=
  mkSidebar "TIME_SERIES_DAILY" "ibm" "daily" 20 "close".














(** The entries of a dict of dicts whose row keys all lie in [D]. *)
Definition rows_within (D : list string)
           (nd : list (string * list (string * json))) : Prop :=
  Forall (fun cd => incl (keys (snd cd)) D) nd.

(** While the items of row [idx] are being entered: the first column is
    [c0], its dict has a key per finished row (and [idx] once [c0] has
    been met in this row), and no other column knows other rows. *)
Definition entering (c0 : string) (done : list string) (idx : string)
           (met : bool) (nd : list (string * list (string * json))) : Prop :=
  exists d0 rest,
    nd = (c0, d0) :: rest
    /\ keys d0 = (if met then done ++ [idx] else done)
    /\ rows_within (done ++ [idx]) rest.

(** Between rows: the first column is [c0], its dict has exactly the rows
    entered so far, in order, and no other column knows other rows. *)
Definition entered (c0 : string) (done : list string)
           (nd : list (string * list (string * json))) : Prop :=
  exists d0 rest,
    nd = (c0, d0) :: rest /\ keys d0 = done /\ rows_within done rest.

(** Every row carries the field that the first row lists first.  Rows with
    the same fields, as the API sends them, are the common case. *)
Definition shared_first_field (rows : list (string * list (string * json)))
  : Prop :=
  match rows with
  | [] => True
  | (_, []) :: _ => False
  | (_, (c0, _) :: _) :: _ => forall r, In r rows -> In c0 (keys (snd r))
  end.

(** The JSON object of a list of rows. *)
Definition payload (rows : list (string * list (string * json))) : json :=
  JObj (map (fun r => (fst r, JObj (snd r))) rows).

(** Two daily rows as the API sends them: newest first, same fields. *)
Definition two_days : list (string * list (string * json)) :=
  [("2024-01-03", [("1. open", JStr "99.0"); ("4. close", JStr "101.25")]);
   ("2024-01-02", [("1. open", JStr "98.5"); ("4. close", JStr "100.5")])].

(** Three rows, the middle one with another field than its neighbours. *)
Definition ragged_days : list (string * list (string * json)) :=
  [("2024-01-03", [("4. close", JStr "101.25")]);
   ("2024-01-02", [("5. volume", JStr "1200")]);
   ("2024-01-01", [("4. close", JStr "100.5")])].

(** Two rows, the first of them empty. *)
Definition hollow_days : list (string * list (string * json)) :=
  [("2024-01-02", []);
   ("2024-01-01", [("4. close", JStr "100.5")])].

(** ** Further vocabulary *)

(** [sep.join(pieces)]. *)
Fixpoint join (sep : string) (pieces : list string) : string :=
  match pieces with
  | [] => EmptyString
  | p :: ps =>
      match ps with
      | [] => p
      | _ :: _ => p ++ sep ++ join sep ps
      end
  end.

(** [s[n:]]. *)
Fixpoint drop (n : nat) (s : string) : string :=
  match n, s with
  | O, _ => s
  | S n', EmptyString => EmptyString
  | S n', String _ s' => drop n' s'
  end.

(** No column of the frame is labelled [name]. *)
Definition no_column (name : string) (df : DataFrame) : Prop :=
  Forall (fun l => label_is name l = false) (columns df).

(** A response that is not a JSON object. *)
Definition not_an_object (v : json) : Prop :=
  match v with
  | JObj _ => False
  | _ => True
  end.

(** A frame is rectangular: one list of cells per column label, one cell
    per row label in each. *)
Definition rectangular (df : DataFrame) : Prop :=
  List.length (data df) = List.length (columns df)
  /\ Forall (fun col => List.length col = List.length (index df)) (data df).

(** The frame a call hands to Streamlit, if any. *)
Definition shown_frame (c : st_call) : option DataFrame :=
  match c with
  | st_dataframe df | st_table df | st_line_chart df => Some df
  | _ => None
  end.

(** The value of field [c] in a row ([None] when the row has none). *)
Definition value (c : string) (s : list (string * json)) : json :=
  match lookup c s with
  | Some v => v
  | None => JNull
  end.





(** The call with which [fetch_alpha_vantage_data] reports a failed
    request. *)
Definition ouch (err : string) : st_call :=
  st_error ("Ouch! An error happened while fetching data: " ++ err).

(** The four branches modelled with their fetch. *)
Definition fetching_branches
  : list ((string -> attempt json) -> sidebar -> string -> ui unit) :=
  [time_series_daily; global_quote; sma; rsi].






(** ** The OVERVIEW branch (lines 207-227) *)

(** [v == s] for a string [s]. *)
Definition equals_string (v : json) (s : string) : bool :=
  match v with
  | JStr t => String.eqb t s
  | _ => false
  end.

(** [st.write(v)]: a string is written as markdown, a dict or a list as
    JSON; what Streamlit does with other values is not described here. *)
Definition st_write (v : json) : ui unit :=
  match v with
  | JStr s => call (st_markdown s)
  | JObj _ | JArr _ => call (st_json v)
  | _ => eval Unmodelled
  end.

Definition overview_error : list st_call :=
  [st_error "Could not fetch company overview. Check the symbol and API key."].

(** [data and data.get('Symbol') == sym]. *)
Definition overview_accepts (sym : string) (data : json) : result bool :=
  if truthy data
  then (symbol <- get data "Symbol" JNull ;; Ok (equals_string symbol sym))%py
  else Ok false.

(** Lines 215-227. *)
Definition show_overview (sym : string) (data : json) : ui unit :=
  (accepted <- eval (overview_accepts sym data) ;;
   if (accepted : bool) then
     df <- eval (global_quote_frame data) ;;
     call (st_table df) ;;
     call (st_markdown "***") ;;
     call (st_caption "Company Description:") ;;
     description <- eval (get data "Description"
                              (JStr "No description available.")) ;;
     st_write description
   else
     call (st_error "Could not fetch company overview. Check the symbol and API key.") ;;
     if truthy data then call (st_json data) else ui_ret tt)%ui.

(** Lines 207-227. *)
Definition overview (requests_get : string -> attempt json)
           (w : sidebar) (api_key : string) : ui unit :=
  let sym := upper (text_input w) in
  let url := (query ++ "OVERVIEW&symbol=" ++ sym
              ++ "&apikey=" ++ api_key)%string in
  (call (st_subheader ("Company Fundamentals: **" ++ the_endpoint w ++ "**")) ;;
   data <- fetch_alpha_vantage_data requests_get url
             ("Fetching overview for " ++ sym) ;;
   show_overview sym data)%ui.

(** ** The INCOME_STATEMENT branch (lines 132-147) *)

(** [x.keys()] on an element of the list of reports. *)
Definition as_record (v : json) : result (list (string * json)) :=
  match v with
  | JObj fields => Ok fields
  | _ => Raise AttributeError
  end.

(** [pd.DataFrame(reports)] for a list of dicts: one row per dict,
    labelled by position, one column per key in the order first met,
    [NaN] where a dict lacks a key.  An empty list makes the empty frame;
    values of other shapes take paths not described here. *)
Definition frame_of_records (reports : json) : result DataFrame :=
  match reports with
  | JArr [] => Ok empty_frame
  | JArr (((JObj _) :: _) as items) =>
      (records <- mapM as_record items ;;
       let cols := union_indexes (map keys records) in
       Ok (mkFrame (map (fun i => LInt (Z.of_nat i))
                        (seq 0 (List.length records)))
                   (map LStr cols)
                   (map (fun c =>
                           map (fun d => match lookup c d with
                                         | Some v => Raw v
                                         | None => NaN
                                         end) records)
                        cols)))%py
  | _ => Unmodelled
  end.

(** A cell as a row label: strings only in this development. *)
Definition cell_label (c : cell) : result label :=
  match c with
  | Raw (JStr s) => Ok (LStr s)
  | _ => Unmodelled
  end.

Definition no_such_column (name : string) : exn :=
  KeyError ("None of ['" ++ name ++ "'] are in the columns").

(** [df.set_index(name)]: the column becomes the row index and leaves the
    columns; [KeyError] when there is none.  A repeated name is not
    described here. *)
Definition set_index (df : DataFrame) (name : string) : result DataFrame :=
  let cols := combine (columns df) (data df) in
  match filter (fun cd => label_is name (fst cd)) cols with
  | [] => Raise (no_such_column name)
  | [(_, col)] =>
      let others := filter (fun cd => negb (label_is name (fst cd))) cols in
      (idx <- mapM cell_label col ;;
       Ok (mkFrame idx (map fst others) (map snd others)))%py
  | _ => Unmodelled
  end.

(** [len(v)]. *)
Definition len (v : json) : result nat :=
  match v with
  | JArr items => Ok (List.length items)
  | JObj fields => Ok (List.length fields)
  | JStr s => Ok (String.length s)
  | _ => Raise TypeError
  end.

Definition income_error (fund_sym : string) : list st_call :=
  [st_error ("Could not find annual reports for " ++ fund_sym
             ++ ". Check the ticker.")].

Definition income_caption (n : nat) : string :=
  "Showing the last " ++ format_int (N.of_nat n)
  ++ " annual income statements.".

(** Lines 138-147. *)
Definition show_income_statement (fund_sym : string) (data_fund : json)
  : ui unit :=
  if truthy data_fund then
    (present <- eval (contains data_fund "annualReports") ;;
     if (present : bool) then
       reports <- eval (getitem data_fund "annualReports") ;;
       df_income <- eval (frame_of_records reports) ;;
       df_income <- eval (set_index df_income "fiscalDateEnding") ;;
       call (st_table (transpose df_income)) ;;
       n <- eval (len reports) ;;
       call (st_caption (income_caption n))
     else
       call (st_error ("Could not find annual reports for " ++ fund_sym
                       ++ ". Check the ticker.")) ;;
       call (st_json data_fund))%ui
  else ui_ret tt.

(** Lines 132-147. *)
Definition income_statement (requests_get : string -> attempt json)
           (w : sidebar) (api_key : string) : ui unit :=
  let fund_sym := upper (text_input w) in
  let url := (query ++ "INCOME_STATEMENT&symbol=" ++ fund_sym
              ++ "&apikey=" ++ api_key)%string in
  (call (st_subheader ("Company Financials: **" ++ the_endpoint w ++ "**")) ;;
   data_fund <- fetch_alpha_vantage_data requests_get url
                  ("Downloading income statements for " ++ fund_sym) ;;
   show_income_statement fund_sym data_fund)%ui.

(** The date of a report (the empty string when it has none). *)
Definition date_of (d : list (string * json)) : string :=
  match lookup "fiscalDateEnding" d with
  | Some (JStr s) => s
  | _ => EmptyString
  end.

(** The table of the reports [records] over the fields [others]: a row per
    field, a column per report. *)
Definition statement_table (others : list string)
           (records : list (list (string * json))) : DataFrame :=
  mkFrame (map LStr others) (map LStr (map date_of records))
          (map (fun d => map (fun c => Raw (value c d)) others) records).

(** The fields of a report other than its date. *)
Definition other_fields (fields : list string) : list string :=
  filter (fun c => negb (String.eqb "fiscalDateEnding" c)) fields.

(** Every report is dated by a string. *)
Definition dated (records : list (list (string * json))) : Prop :=
  forall d, In d records ->
            exists s, lookup "fiscalDateEnding" d = Some (JStr s).

(** * Properties *)

(** ** [str.split] and the column rename *)

Lemma prefix_cons (c : ascii) (a b : string) :
  prefix (String c a) (String c b) = prefix a b.
Proof.
  cbn [prefix]. destruct (ascii_dec c c) as [_ | ne]; [reflexivity | congruence].
Qed.

Lemma prefix_trans : forall a b c : string,
  prefix a b = true -> prefix b c = true -> prefix a c = true.
Proof.
  induction a as [| x a IH]; intros b c Hab Hbc.
  - destruct c; reflexivity.
  - destruct b as [| y b]; [discriminate Hab |].
    destruct c as [| z c]; [discriminate Hbc |].
    cbn [prefix] in *.
    destruct (ascii_dec x y) as [-> | ]; [| discriminate Hab].
    destruct (ascii_dec y z) as [-> | ]; [| discriminate Hbc].
    eauto.
Qed.

Lemma prefix_nil_r (sep : string) :
  sep <> EmptyString -> prefix sep EmptyString = false.
Proof. destruct sep; [congruence | reflexivity]. Qed.

(** The first piece of a split is a prefix of the string. *)
Lemma split_from_head (sep s : string) :
  exists p ps, split_from sep 0 s = p :: ps /\ prefix p s = true.
Proof.
  induction s as [| c s (p & ps & E & P)].
  - exists EmptyString, []. split; reflexivity.
  - cbn [split_from]. destruct (prefix sep (String c s)).
    + eexists _, _. split; reflexivity.
    + rewrite E. exists (String c p), ps. split; [reflexivity |].
      now rewrite prefix_cons.
Qed.

(** No piece of a split contains the separator. *)
Lemma split_from_pieces_free (sep : string) :
  sep <> EmptyString ->
  forall s skip, Forall (fun p => occurs sep p = false) (split_from sep skip s).
Proof.
  intros Hsep. induction s as [| c s IH]; intros skip.
  - constructor; [| constructor]. cbn [occurs].
    now rewrite prefix_nil_r.
  - cbn [split_from]. destruct skip as [| n]; [| apply IH].
    destruct (prefix sep (String c s)) eqn:Hp.
    + constructor; [| apply IH]. cbn [occurs]. now rewrite prefix_nil_r.
    + destruct (split_from_head sep s) as (p & ps & E & P).
      specialize (IH 0). rewrite E in *.
      inversion IH as [| ? ? Hfree Hrest]; subst.
      constructor; [| assumption].
      cbn [occurs]. rewrite Hfree, orb_false_r.
      destruct (prefix sep (String c p)) eqn:Hq; [| reflexivity].
      rewrite <- Hp. symmetry.
      apply prefix_trans with (b := String c p); [assumption |].
      now rewrite prefix_cons.
Qed.

(** A string without the separator splits into itself alone. *)
Lemma split_from_free (sep : string) :
  forall p, occurs sep p = false -> split_from sep 0 p = [p].
Proof.
  induction p as [| c p IH]; intros H; [reflexivity |].
  cbn [occurs] in H. apply orb_false_iff in H as [Hp Ho].
  cbn [split_from]. rewrite Hp, IH by assumption. reflexivity.
Qed.

Lemma split_from_nonnil (sep : string) :
  forall s skip, split_from sep skip s <> [].
Proof.
  induction s as [| c s IH]; intros skip; cbn [split_from]; [discriminate |].
  destruct skip; [| apply IH].
  destruct (prefix sep (String c s)); [discriminate |].
  destruct (split_from sep 0 s); discriminate.
Qed.

(** A name that contains the separator has a second piece. *)
Lemma split_from_occurs (sep : string) :
  sep <> EmptyString ->
  forall s, occurs sep s = true ->
            exists p q rest, split_from sep 0 s = p :: q :: rest.
Proof.
  intros Hsep. induction s as [| c s IH]; cbn [occurs split_from].
  - now rewrite prefix_nil_r.
  - destruct (prefix sep (String c s)).
    + intros _.
      destruct (split_from sep (String.length sep - 1) s) as [| q rest] eqn:E;
        [now apply split_from_nonnil in E | eauto].
    + cbn [orb]. intros H. destruct (IH H) as (p & q & rest & ->). eauto.
Qed.

Lemma rename_column_defined (c : string) :
  occurs ". " c = true -> exists n, rename_column (LStr c) = Ok n.
Proof.
  intros H.
  destruct (split_from_occurs ". " ltac:(discriminate) c H) as (p & q & rest & E).
  exists (LStr q). unfold rename_column, str_split. cbn [rbind].
  now rewrite E.
Qed.

Lemma rename_column_inv (c c' : label) :
  rename_column c = Ok c' ->
  exists s p, c = LStr s /\ c' = LStr p
              /\ nth_error (split_from ". " 0 s) 1 = Some p.
Proof.
  destruct c as [s | n]; [| discriminate].
  unfold rename_column, str_split. cbn [rbind].
  destruct (nth_error (split_from ". " 0 s) 1) as [p |] eqn:E; [| discriminate].
  intros [= <-]. now exists s, p.
Qed.

(** A renamed column has lost its separator: the rule cannot be applied to
    it again. *)
Lemma rename_column_twice (c c' : label) :
  rename_column c = Ok c' -> rename_column c' = Raise IndexError.
Proof.
  intros H. destruct (rename_column_inv _ _ H) as (s & p & -> & -> & E).
  assert (Hfree : occurs ". " p = false).
  { pose proof (split_from_pieces_free ". " ltac:(discriminate) s 0) as F.
    rewrite Forall_forall in F. apply F. eapply nth_error_In; eassumption. }
  unfold rename_column, str_split. cbn [rbind].
  now rewrite (split_from_free _ _ Hfree).
Qed.

Lemma mapM_Forall2 {A B} (f : A -> result B) (xs : list A) (ys : list B) :
  mapM f xs = Ok ys <-> Forall2 (fun x y => f x = Ok y) xs ys.
Proof.
  revert ys. induction xs as [| x xs IH]; intros ys; cbn [mapM].
  - split.
    + intros [= <-]. constructor.
    + intros H. inversion H. reflexivity.
  - split.
    + destruct (f x) as [y | | |] eqn:Ex; cbn [rbind]; try discriminate.
      destruct (mapM f xs) as [ys' | | |]; cbn [rbind]; try discriminate.
      intros [= <-]. constructor; [assumption | now apply IH].
    + intros H. inversion H as [| ? y ? ys' Hx Hxs]; subst.
      rewrite Hx. cbn [rbind]. apply IH in Hxs. rewrite Hxs. reflexivity.
Qed.

Lemma Forall2_length_eq {A B} (R : A -> B -> Prop) (xs : list A) (ys : list B) :
  Forall2 R xs ys -> List.length ys = List.length xs.
Proof. induction 1; cbn; congruence. Qed.

(** What lines 98-103 compute, step by step. *)
Lemma time_series_daily_frame_inv (ts : json) (df : DataFrame) :
  time_series_daily_frame ts = Ok df ->
  exists df0 names,
    from_dict_index ts = Ok df0
    /\ rename_columns (columns df0) = Ok names
    /\ df = mkFrame (index df0) names (map (map to_numeric) (data df0)).
Proof.
  unfold time_series_daily_frame.
  destruct (from_dict_index ts) as [df0 | | |] eqn:E0;
    cbn [rbind]; try discriminate.
  destruct (rename_columns (columns df0)) as [names | | |] eqn:En;
    cbn [rbind]; try discriminate.
  unfold set_columns.
  destruct (List.length names =? List.length (columns df0))%nat;
    cbn [rbind]; [| discriminate].
  intros [= <-]. now exists df0, names.
Qed.

Lemma time_series_daily_frame_intro (ts : json) (df0 : DataFrame)
      (names : list label) :
  from_dict_index ts = Ok df0 ->
  rename_columns (columns df0) = Ok names ->
  time_series_daily_frame ts
  = Ok (mkFrame (index df0) names (map (map to_numeric) (data df0))).
Proof.
  intros H0 Hn. unfold time_series_daily_frame. rewrite H0. cbn [rbind].
  rewrite Hn. cbn [rbind]. unfold set_columns.
  apply mapM_Forall2, Forall2_length_eq in Hn. rewrite Hn, Nat.eqb_refl.
  reflexivity.
Qed.

Lemma rename_columns_twice (cols names : list label) :
  rename_columns cols = Ok names ->
  rename_columns names = match names with
                         | [] => Ok []
                         | _ :: _ => Raise IndexError
                         end.
Proof.
  intros H. apply mapM_Forall2 in H.
  destruct H as [| c n cols' names' Hc _]; [reflexivity |].
  unfold rename_columns. cbn [mapM].
  now rewrite (rename_column_twice _ _ Hc).
Qed.

(** C1 (as amended): the rename has no collision check.  Whenever every
    column name of the payload has a second piece after ['. '], lines
    98-103 produce a frame whose columns are the renamed names one by one,
    repeated names included; no error is raised for a collision. *)
Theorem rename_keeps_colliding_names (ts : json) (df0 : DataFrame)
        (names : list label) :
  from_dict_index ts = Ok df0 ->
  Forall2 (fun c n => rename_column c = Ok n) (columns df0) names ->
  time_series_daily_frame ts
  = Ok (mkFrame (index df0) names (map (map to_numeric) (data df0))).
Proof.
  intros H0 Hn. apply time_series_daily_frame_intro; [assumption |].
  now apply mapM_Forall2.
Qed.

Lemma rename_keeps_colliding_names_witness :
  time_series_daily_frame colliding_payload
  = Ok (mkFrame [LStr "2024-01-01"] [LStr "x"; LStr "x"]
                (map (map to_numeric) [[Raw (JStr "1")]; [Raw (JStr "2")]])).
Proof.
  apply (rename_keeps_colliding_names colliding_payload
           (mkFrame [LStr "2024-01-01"] [LStr "a. x"; LStr "b. x"]
                    [[Raw (JStr "1")]; [Raw (JStr "2")]])).
  - reflexivity.
  - repeat constructor.
Defined.

(** C1, the claim as stated fails: two distinct source names, ["a. x"] and
    ["b. x"], rename to the same ["x"], and the result is a table with two
    columns named ["x"], not an error. *)
Lemma column_collision_is_not_reported :
  rename_column (LStr "a. x") = Ok (LStr "x")
  /\ rename_column (LStr "b. x") = Ok (LStr "x")
  /\ time_series_daily_frame colliding_payload
     = Ok (mkFrame [LStr "2024-01-01"] [LStr "x"; LStr "x"]
                   [[Num 1]; [Num 2]]).
Proof. repeat split; reflexivity. Qed.

Lemma rename_column_undefined (c : string) :
  occurs ". " c = false -> rename_column (LStr c) = Raise IndexError.
Proof.
  intros H. unfold rename_column, str_split. cbn [rbind].
  now rewrite (split_from_free _ _ H).
Qed.

(** C2 (as amended): the rename is a function defined exactly on the
    names that contain ['. '] (it raises [IndexError] on the others), and
    a renamed name never contains ['. '].  So on the column set of a
    successfully built frame, renaming again is not a no-op: it raises
    [IndexError] at the first column (and only an empty column set is left
    as it is). *)
Theorem rename_of_renamed_columns :
  (forall c, occurs ". " c = true -> exists n, rename_column (LStr c) = Ok n)
  /\ (forall c, occurs ". " c = false ->
                rename_column (LStr c) = Raise IndexError)
  /\ (forall c c', rename_column c = Ok c' ->
                   rename_column c' = Raise IndexError)
  /\ (forall ts df,
         time_series_daily_frame ts = Ok df ->
         rename_columns (columns df) = match columns df with
                                       | [] => Ok []
                                       | _ :: _ => Raise IndexError
                                       end).
Proof.
  split; [exact rename_column_defined |].
  split; [exact rename_column_undefined |].
  split; [exact rename_column_twice |].
  intros ts df H. destruct (time_series_daily_frame_inv _ _ H)
    as (df0 & names & _ & Hn & ->).
  cbn [columns]. exact (rename_columns_twice _ _ Hn).
Qed.

Lemma rename_of_renamed_columns_witness :
  rename_column (LStr "close") = Raise IndexError
  /\ rename_columns (columns close_frame) = Raise IndexError.
Proof.
  split.
  - exact (proj1 (proj2 (proj2 rename_of_renamed_columns))
                 (LStr "4. close") (LStr "close") eq_refl).
  - exact (proj2 (proj2 (proj2 rename_of_renamed_columns))
                 close_payload close_frame eq_refl).
Defined.

(** C2, the claim as stated fails: the frame built from
    [{"2024-01-01": {"4. close": "100.5"}}] has the column set [["close"]],
    and renaming that set raises instead of returning it. *)
Lemma rename_is_not_idempotent :
  time_series_daily_frame close_payload = Ok close_frame
  /\ rename_columns (columns close_frame) = Raise IndexError.
Proof. split; reflexivity. Qed.

(** ** The branches on a missing or empty container *)

Lemma mem_keys_lookup {V} (k : string) (d : list (string * V)) :
  mem k (keys d) = match lookup k d with Some _ => true | None => false end.
Proof.
  induction d as [| [k' v] d IH]; [reflexivity |].
  cbn [keys map fst mem existsb lookup]. destruct (String.eqb k k'); [reflexivity |].
  exact IH.
Qed.

Lemma truthy_object (f : string * json) (fs : list (string * json)) :
  truthy (JObj (f :: fs)) = true.
Proof. reflexivity. Qed.

Lemma show_time_series_daily_missing (f : string * json)
      (fs : list (string * json)) :
  lookup "Time Series (Daily)" (f :: fs) = None ->
  show_time_series_daily (JObj (f :: fs))
  = (daily_warning ++ [st_json (JObj (f :: fs))], Ok tt).
Proof.
  intros H. unfold show_time_series_daily. rewrite truthy_object.
  unfold contains. rewrite mem_keys_lookup, H. reflexivity.
Qed.

Lemma show_global_quote_falsy (f : string * json) (fs : list (string * json))
      (quote : json) :
  get (JObj (f :: fs)) "Global Quote" (JObj []) = Ok quote ->
  truthy quote = false ->
  show_global_quote (JObj (f :: fs))
  = (quote_error ++ [st_json (JObj (f :: fs))], Ok tt).
Proof.
  intros Hg Ht. unfold show_global_quote. rewrite truthy_object, Hg.
  unfold ui_bind, eval. cbn [fst snd app]. rewrite Ht. reflexivity.
Qed.

Lemma show_indicator_falsy (the_endpoint caption : string)
      (f : string * json) (fs : list (string * json)) (ts : json) :
  get (JObj (f :: fs)) ("Technical Analysis: " ++ the_endpoint) (JObj [])
  = Ok ts ->
  truthy ts = false ->
  show_indicator the_endpoint caption (JObj (f :: fs))
  = (indicator_error the_endpoint ++ [st_json (JObj (f :: fs))], Ok tt).
Proof.
  intros Hg Ht. unfold show_indicator. rewrite truthy_object, Hg.
  unfold ui_bind, eval. cbn [fst snd app]. rewrite Ht. reflexivity.
Qed.

Lemma get_absent_or_empty (k : string) (fields : list (string * json)) :
  absent k fields \/ empty_object k fields ->
  get (JObj fields) k (JObj []) = Ok (JObj []).
Proof. unfold absent, empty_object, get. now intros [-> | ->]. Qed.

(** C4 (as amended): for every non-empty JSON object that lacks the
    container key (the API's error payload
    [{"Error Message": "invalid symbol"}] is one), the TIME_SERIES_DAILY
    branch shows its warning and the SMA branch its error, each followed by
    the raw payload; no table is rendered and nothing raises. *)
Theorem missing_container_is_reported (f : string * json)
        (fs : list (string * json)) :
  (absent "Time Series (Daily)" (f :: fs) ->
   show_time_series_daily (JObj (f :: fs))
   = (daily_warning ++ [st_json (JObj (f :: fs))], Ok tt))
  /\ (forall time_period,
         absent "Technical Analysis: SMA" (f :: fs) ->
         show_sma time_period (JObj (f :: fs))
         = (indicator_error "SMA" ++ [st_json (JObj (f :: fs))], Ok tt)).
Proof.
  split.
  - apply show_time_series_daily_missing.
  - intros time_period H. unfold show_sma.
    apply show_indicator_falsy with (ts := JObj []); [| reflexivity].
    apply get_absent_or_empty. now left.
Qed.

Lemma missing_container_is_reported_witness :
  show_time_series_daily error_payload
  = (daily_warning ++ [st_json error_payload], Ok tt)
  /\ show_sma 20 error_payload
     = (indicator_error "SMA" ++ [st_json error_payload], Ok tt).
Proof.
  split.
  - apply (proj1 (missing_container_is_reported
                    ("Error Message", JStr "invalid symbol") [])).
    reflexivity.
  - apply (proj2 (missing_container_is_reported
                    ("Error Message", JStr "invalid symbol") [])).
    reflexivity.
Defined.

(** C4, the claim as stated fails: the empty object [{}] has no container
    either, yet both branches end without reporting anything: no warning,
    no error, no raw payload. *)
Lemma empty_response_is_not_reported :
  absent "Time Series (Daily)" []
  /\ show_time_series_daily (JObj []) = ([], Ok tt)
  /\ absent "Technical Analysis: SMA" []
  /\ show_sma 20 (JObj []) = ([], Ok tt).
Proof. repeat split; reflexivity. Qed.

(** C9: in the GLOBAL_QUOTE, SMA and RSI branches a response whose
    container key maps to an empty object goes the way of a response
    without the key: the branch shows its error message and the raw
    payload, and renders no table. *)
Theorem empty_container_is_missing_container (f : string * json)
        (fs : list (string * json)) :
  (absent "Global Quote" (f :: fs) \/ empty_object "Global Quote" (f :: fs) ->
   show_global_quote (JObj (f :: fs))
   = (quote_error ++ [st_json (JObj (f :: fs))], Ok tt))
  /\ (forall time_period,
         absent "Technical Analysis: SMA" (f :: fs)
         \/ empty_object "Technical Analysis: SMA" (f :: fs) ->
         show_sma time_period (JObj (f :: fs))
         = (indicator_error "SMA" ++ [st_json (JObj (f :: fs))], Ok tt))
  /\ (absent "Technical Analysis: RSI" (f :: fs)
      \/ empty_object "Technical Analysis: RSI" (f :: fs) ->
      show_rsi (JObj (f :: fs))
      = (indicator_error "RSI" ++ [st_json (JObj (f :: fs))], Ok tt)).
Proof.
  split; [| split].
  - intros H. apply show_global_quote_falsy with (quote := JObj []);
      [| reflexivity].
    now apply get_absent_or_empty.
  - intros time_period H. unfold show_sma.
    apply show_indicator_falsy with (ts := JObj []); [| reflexivity].
    now apply get_absent_or_empty.
  - intros H. unfold show_rsi.
    apply show_indicator_falsy with (ts := JObj []); [| reflexivity].
    now apply get_absent_or_empty.
Qed.

Lemma empty_container_is_missing_container_witness :
  show_global_quote (JObj [("Global Quote", JObj [])])
  = (quote_error ++ [st_json (JObj [("Global Quote", JObj [])])], Ok tt)
  /\ show_sma 20 (JObj [("Technical Analysis: SMA", JObj [])])
     = (indicator_error "SMA"
        ++ [st_json (JObj [("Technical Analysis: SMA", JObj [])])], Ok tt)
  /\ show_rsi (JObj [("Technical Analysis: RSI", JObj [])])
     = (indicator_error "RSI"
        ++ [st_json (JObj [("Technical Analysis: RSI", JObj [])])], Ok tt).
Proof.
  split; [| split].
  - apply (proj1 (empty_container_is_missing_container
                    ("Global Quote", JObj []) [])).
    right. reflexivity.
  - apply (proj1 (proj2 (empty_container_is_missing_container
                           ("Technical Analysis: SMA", JObj []) []))).
    right. reflexivity.
  - apply (proj2 (proj2 (empty_container_is_missing_container
                           ("Technical Analysis: RSI", JObj []) []))).
    right. reflexivity.
Defined.

(** ** The GLOBAL_QUOTE table *)

Lemma transpose_record (cols : list label) (fields : list (string * json)) :
  transpose (mkFrame [LInt 0] cols (map (fun kv => [Raw (snd kv)]) fields))
  = mkFrame cols [LInt 0] [map (fun kv => Raw (snd kv)) fields].
Proof.
  unfold transpose. cbn [index columns data List.length seq map].
  rewrite map_map. reflexivity.
Qed.

Lemma global_quote_frame_record (fields : list (string * json)) :
  global_quote_frame (JObj fields)
  = Ok (mkFrame (map LStr (keys fields)) [LStr "Value"]
                [map (fun kv => Raw (snd kv)) fields]).
Proof.
  unfold global_quote_frame, frame_of_record. cbn [rbind].
  rewrite transpose_record. reflexivity.
Qed.

(** C3 (as amended): when the response holds a non-empty quote object,
    the GLOBAL_QUOTE branch renders a table with one row per field of the
    quote, keyed by the field name as received (no prefix is stripped),
    and a single column named ["Value"] holding the values as received (no
    number is parsed). *)
Theorem global_quote_table (f : string * json) (fs : list (string * json))
        (q : string * json) (qs : list (string * json)) :
  lookup "Global Quote" (f :: fs) = Some (JObj (q :: qs)) ->
  show_global_quote (JObj (f :: fs))
  = ([st_table (mkFrame (map LStr (keys (q :: qs))) [LStr "Value"]
                        [map (fun kv => Raw (snd kv)) (q :: qs)])],
     Ok tt).
Proof.
  intros H. unfold show_global_quote. rewrite truthy_object.
  unfold get. rewrite H. unfold ui_bind, eval.
  cbn [fst snd app truthy]. rewrite global_quote_frame_record. reflexivity.
Qed.

Lemma global_quote_table_witness :
  show_global_quote quote_payload
  = ([st_table (mkFrame [LStr "05. price"] [LStr "Value"]
                        [[Raw (JStr "150.00")]])],
     Ok tt).
Proof.
  apply (global_quote_table
           ("Global Quote", JObj [("05. price", JStr "150.00")]) []
           ("05. price", JStr "150.00") []).
  reflexivity.
Defined.

(** C3, the claim as stated fails: on
    [{"Global Quote": {"05. price": "150.00"}}] the one row is keyed
    ["05. price"], the one column is named ["Value"], not ["price"], and
    the cell is the text ["150.00"], not the number 150.0. *)
Lemma global_quote_keeps_prefix_and_text :
  show_global_quote quote_payload
  = ([st_table (mkFrame [LStr "05. price"] [LStr "Value"]
                        [[Raw (JStr "150.00")]])],
     Ok tt)
  /\ [LStr "Value"] <> [LStr "price"]
  /\ [[Raw (JStr "150.00")]] <> [[Num 150]].
Proof. split; [reflexivity | split; discriminate]. Qed.

(** ** The TIME_SERIES_DAILY round trip *)

(** C7: from [{"2024-01-01": {"4. close": "100.5"}}] lines 98-103 build a
    frame with exactly one row keyed ["2024-01-01"], exactly one column
    named ["close"], and the number 100.5 (201/2) in that cell; the branch
    shows that frame and charts its ["close"] column. *)
Theorem close_round_trip :
  time_series_daily_frame close_payload
  = Ok (mkFrame [LStr "2024-01-01"] [LStr "close"] [[Num (201 # 2)]])
  /\ (201 # 2 == 100.5)%Q
  /\ show_time_series_daily (JObj [("Time Series (Daily)", close_payload)])
     = ([st_dataframe close_frame; st_line_chart close_frame], Ok tt).
Proof. split; [| split]; reflexivity. Qed.

(** ** The API key *)



(** ** Table and chart *)

Lemma select_spec (df c : DataFrame) (name : string) :
  select df name = Ok c ->
  index c = index df /\ forall col, In col (data c) -> In col (data df).
Proof.
  unfold select.
  destruct (filter _ _) as [| cd cols] eqn:E; [discriminate |].
  rewrite <- E. intros [= <-]. split; [reflexivity |].
  cbn [data]. intros col Hin. apply in_map_iff in Hin as ([l col'] & <- & Hin).
  apply filter_In in Hin as [Hin _].
  now apply in_combine_r in Hin.
Qed.

Lemma ui_bind_eval {A B} (r : result A) (f : A -> ui B) :
  ui_bind (eval r) f = match r with
                       | Ok a => f a
                       | Raise e => ([], Raise e)
                       | Stop => ([], Stop)
                       | Unmodelled => ([], Unmodelled)
                       end.
Proof.
  destruct r as [a | e | |]; try reflexivity.
  unfold ui_bind, eval. cbn [fst snd app]. now destruct (f a).
Qed.

Lemma ui_bind_call {B} (c : st_call) (f : unit -> ui B) :
  ui_bind (call c) f = (c :: fst (f tt), snd (f tt)).
Proof. reflexivity. Qed.

(** What the TIME_SERIES_DAILY branch can have shown. *)
Lemma show_time_series_daily_calls (raw_data : json) :
  forall c, In c (fst (show_time_series_daily raw_data)) ->
    (exists body, c = st_warning body)
    \/ c = st_json raw_data
    \/ exists time_series df,
         getitem raw_data "Time Series (Daily)" = Ok time_series
         /\ time_series_daily_frame time_series = Ok df
         /\ (c = st_dataframe (head 20 df)
             \/ exists close, select df "close" = Ok close
                              /\ c = st_line_chart close).
Proof.
  unfold show_time_series_daily.
  destruct (truthy raw_data); [| intros c H; cbn in H; contradiction].
  rewrite ui_bind_eval.
  destruct (contains raw_data _) as [[|] | | |]; try (intros c H; cbn in H; contradiction).
  - rewrite ui_bind_eval.
    destruct (getitem raw_data _) as [time_series | | |];
      try (intros c H; cbn in H; contradiction).
    rewrite ui_bind_eval.
    destruct (time_series_daily_frame time_series) as [df | | |] eqn:Ef;
      try (intros c H; cbn in H; contradiction).
    cbv beta iota. rewrite ui_bind_call, ui_bind_eval.
    destruct (select df "close") as [close | | |] eqn:Es;
      cbn; intros c H;
      repeat (destruct H as [<- | H]); try contradiction;
      right; right; exists time_series, df; repeat split; eauto.
  - cbn. intros c [<- | [<- | []]]; eauto.
Qed.

(** What an indicator branch can have shown. *)
Lemma show_indicator_calls (the_endpoint caption : string) (data : json) :
  forall c, In c (fst (show_indicator the_endpoint caption data)) ->
    (exists body, c = st_error body)
    \/ c = st_json data
    \/ c = st_caption caption
    \/ exists ts df,
         get data ("Technical Analysis: " ++ the_endpoint) (JObj []) = Ok ts
         /\ indicator_frame the_endpoint ts = Ok df
         /\ (c = st_dataframe (head 20 df) \/ c = st_line_chart df).
Proof.
  unfold show_indicator.
  destruct (truthy data); [| intros c H; cbn in H; contradiction].
  rewrite ui_bind_eval.
  destruct (get data _ _) as [ts | | |]; try (intros c H; cbn in H; contradiction).
  destruct (truthy ts).
  - rewrite ui_bind_eval.
    destruct (indicator_frame the_endpoint ts) as [df | | |] eqn:Ef;
      try (intros c H; cbn in H; contradiction).
    cbn. intros c H.
    repeat (destruct H as [<- | H]); try contradiction; eauto 10.
  - cbn. intros c [<- | [<- | []]]; eauto.
Qed.




(** ** Numeric coercion *)



















Lemma indicator_frame_intro (the_endpoint : string) (ts : json)
      (df0 : DataFrame) :
  from_dict_index ts = Ok df0 ->
  List.length (columns df0) = 1 ->
  indicator_frame the_endpoint ts
  = Ok (apply_to_numeric (mkFrame (index df0) [LStr the_endpoint] (data df0))).
Proof.
  intros H0 H1. unfold indicator_frame. rewrite H0. cbn [rbind].
  unfold set_columns. rewrite H1. reflexivity.
Qed.



(** ** Row order of [from_dict(orient='index')] *)

Lemma mem_In (k : string) (l : list string) : mem k l = true <-> In k l.
Proof.
  unfold mem. rewrite existsb_exists. split.
  - intros (x & Hin & E). apply String.eqb_eq in E. now subst.
  - intros H. exists k. split; [assumption | apply String.eqb_refl].
Qed.

Lemma mem_not_In (k : string) (l : list string) : mem k l = false <-> ~ In k l.
Proof.
  rewrite <- mem_In. destruct (mem k l); split; congruence.
Qed.

Lemma keys_setitem {V} (d : list (string * V)) (k : string) (v : V) :
  keys (setitem d k v) = if mem k (keys d) then keys d else keys d ++ [k].
Proof.
  induction d as [| [k' v'] d IH]; [reflexivity |].
  cbn [setitem keys map fst mem existsb]. destruct (String.eqb k k'); [reflexivity |].
  cbn [map fst orb]. fold (keys (setitem d k v)). rewrite IH.
  fold (keys d). fold (mem k (keys d)). now destruct (mem k (keys d)).
Qed.

Lemma keys_setitem_incl {V} (d : list (string * V)) (k : string) (v : V) :
  incl (keys (setitem d k v)) (keys d ++ [k]).
Proof.
  rewrite keys_setitem. destruct (mem k (keys d)).
  - apply incl_appl, incl_refl.
  - apply incl_refl.
Qed.

Lemma rows_within_weaken (D D' : list string) nd :
  incl D D' -> rows_within D nd -> rows_within D' nd.
Proof.
  intros HD. unfold rows_within. apply Forall_impl.
  intros cd H. eapply incl_tran; eassumption.
Qed.

Lemma rows_within_lookup (D : list string) nd (col : string) :
  rows_within D nd ->
  incl (keys match lookup col nd with Some d => d | None => [] end) D.
Proof.
  induction 1 as [| [c d] nd Hd _ IH]; cbn [lookup].
  - intros x [].
  - destruct (String.eqb col c); assumption.
Qed.

Lemma rows_within_setitem (D : list string) nd (col : string)
      (inner : list (string * json)) :
  rows_within D nd -> incl (keys inner) D ->
  rows_within D (setitem nd col inner).
Proof.
  intros H Hi. induction H as [| [c d] nd Hd Hnd IH]; cbn [setitem].
  - constructor; [assumption | constructor].
  - destruct (String.eqb col c); constructor; assumption.
Qed.

Lemma rows_within_nested_setitem (D : list string) nd (col idx : string)
      (v : json) :
  rows_within D nd -> In idx D -> rows_within D (nested_setitem nd col idx v).
Proof.
  intros H Hidx. unfold nested_setitem. apply rows_within_setitem; [assumption |].
  eapply incl_tran; [apply keys_setitem_incl |].
  apply incl_app; [now apply rows_within_lookup |].
  intros x [<- | []]. assumption.
Qed.

Lemma entering_step (c0 : string) (done : list string) (idx : string)
      (met : bool) nd (col : string) (v : json) :
  ~ In idx done ->
  entering c0 done idx met nd ->
  entering c0 done idx (met || String.eqb col c0) (nested_setitem nd col idx v).
Proof.
  intros Hnew (d0 & rest & -> & Hk & Hrest).
  unfold nested_setitem. cbn [lookup setitem].
  destruct (String.eqb col c0) eqn:E.
  - rewrite orb_true_r. exists (setitem d0 idx v), rest.
    split; [reflexivity | split; [| assumption]].
    rewrite keys_setitem, Hk. destruct met.
    + replace (mem idx (done ++ [idx])) with true; [reflexivity |].
      symmetry. apply mem_In, in_or_app. right. now left.
    + apply mem_not_In in Hnew. now rewrite Hnew.
  - rewrite orb_false_r. eexists d0, _.
    split; [reflexivity | split; [assumption |]].
    apply (rows_within_nested_setitem _ rest col idx v Hrest).
    apply in_or_app. right. now left.
Qed.

Lemma entering_items (c0 : string) (done : list string) (idx : string)
      (s : list (string * json)) :
  ~ In idx done ->
  forall met nd,
    entering c0 done idx met nd ->
    entering c0 done idx (met || mem c0 (keys s))
             (fold_left (fun nd cv => nested_setitem nd (fst cv) idx (snd cv))
                        s nd).
Proof.
  intros Hnew. induction s as [| [col v] s IH]; intros met nd H; cbn [fold_left].
  - cbn. now rewrite orb_false_r.
  - apply (entering_step _ _ _ _ _ col v Hnew) in H. apply IH in H.
    cbn [keys map fst mem existsb]. fold (keys s). fold (mem c0 (keys s)).
    rewrite (String.eqb_sym c0 col). now rewrite orb_assoc.
Qed.

Lemma add_row_entered (c0 : string) (done : list string) nd
      (row : string * list (string * json)) :
  entered c0 done nd ->
  ~ In (fst row) done ->
  In c0 (keys (snd row)) ->
  entered c0 (done ++ [fst row]) (add_row nd row).
Proof.
  intros (d0 & rest & -> & Hk & Hrest) Hnew Hc0.
  assert (Hstart : entering c0 done (fst row) false ((c0, d0) :: rest)).
  { exists d0, rest. split; [reflexivity | split; [assumption |]].
    eapply rows_within_weaken; [| eassumption]. apply incl_appl, incl_refl. }
  apply (entering_items c0 done (fst row) (snd row) Hnew) in Hstart.
  apply mem_In in Hc0. rewrite Hc0 in Hstart.
  destruct Hstart as (d1 & rest1 & E & Hk1 & Hrest1).
  exists d1, rest1. auto.
Qed.

Lemma rows_entered (c0 : string) :
  forall rows done nd,
    entered c0 done nd ->
    NoDup (done ++ keys rows) ->
    (forall r, In r rows -> In c0 (keys (snd r))) ->
    entered c0 (done ++ keys rows) (fold_left add_row rows nd).
Proof.
  induction rows as [| row rows IH]; intros done nd H Hnd Hc0; cbn [fold_left].
  - cbn. now rewrite List.app_nil_r.
  - cbn [keys map] in *. fold (keys rows) in *.
    replace (done ++ fst row :: keys rows)
      with ((done ++ [fst row]) ++ keys rows) in *
      by (rewrite <- List.app_assoc; reflexivity).
    apply IH; [| assumption | intros r Hr; apply Hc0; now right].
    apply add_row_entered; [assumption | | apply Hc0; now left].
    rewrite <- List.app_assoc in Hnd. apply NoDup_remove_2 in Hnd.
    intros Hin. apply Hnd. apply in_or_app. now left.
Qed.

Lemma from_nested_dict_entered (row : string * list (string * json))
      (rows : list (string * list (string * json))) :
  NoDup (keys (row :: rows)) ->
  shared_first_field (row :: rows) ->
  exists c0, entered c0 (keys (row :: rows)) (from_nested_dict (row :: rows)).
Proof.
  destruct row as [idx0 [| [c0 v0] s0]]; [intros _ [] |].
  intros Hnd Hc0. cbn [shared_first_field] in Hc0. exists c0.
  unfold from_nested_dict. cbn [fold_left].
  change (keys ((idx0, (c0, v0) :: s0) :: rows)) with ([idx0] ++ keys rows).
  apply rows_entered; [| exact Hnd | intros r Hr; apply Hc0; now right].
  unfold add_row. cbn [snd fst fold_left].
  assert (Hstart : entering c0 [] idx0 true (nested_setitem [] c0 idx0 v0)).
  { exists [(idx0, v0)], []. repeat split. constructor. }
  apply (entering_items c0 [] idx0 s0 (fun H => H)) in Hstart.
  destruct Hstart as (d1 & rest1 & E & Hk1 & Hrest1).
  exists d1, rest1. auto.
Qed.

Lemma unique_extend_fresh : forall l acc,
  NoDup (acc ++ l) -> unique_extend acc l = acc ++ l.
Proof.
  unfold unique_extend.
  induction l as [| x l IH]; intros acc H; cbn [fold_left].
  - now rewrite List.app_nil_r.
  - assert (Hx : mem x acc = false).
    { apply mem_not_In. apply NoDup_remove_2 in H.
      intros Hin. apply H. apply in_or_app. now left. }
    rewrite Hx, IH; rewrite <- List.app_assoc; [reflexivity | exact H].
Qed.

Lemma unique_extend_known : forall l acc,
  incl l acc -> unique_extend acc l = acc.
Proof.
  unfold unique_extend.
  induction l as [| x l IH]; intros acc H; cbn [fold_left]; [reflexivity |].
  assert (Hx : mem x acc = true) by (apply mem_In, H; now left).
  rewrite Hx. apply IH. intros y Hy. apply H. now right.
Qed.

Lemma union_indexes_known : forall ls acc,
  Forall (fun l => incl l acc) ls -> fold_left unique_extend ls acc = acc.
Proof.
  induction ls as [| l ls IH]; intros acc H; cbn [fold_left]; [reflexivity |].
  inversion H; subst. rewrite unique_extend_known by assumption. now apply IH.
Qed.

Lemma frame_of_columns_index (c0 : string) (L : list string) nd :
  NoDup L -> entered c0 L nd -> index (frame_of_columns nd) = map LStr L.
Proof.
  intros HL (d0 & rest & -> & Hk & Hrest).
  unfold frame_of_columns. cbn [index map snd]. f_equal.
  unfold union_indexes. cbn [fold_left]. rewrite Hk.
  rewrite unique_extend_fresh by exact HL. cbn [app].
  apply union_indexes_known. unfold rows_within in Hrest.
  rewrite Forall_map. exact Hrest.
Qed.

(** The columns of the nested dict are field names of the rows. *)
Lemma keys_add_row_incl (idx : string) :
  forall (s : list (string * json)) nd,
    incl (keys (fold_left (fun nd cv => nested_setitem nd (fst cv) idx (snd cv))
                          s nd))
         (keys nd ++ keys s).
Proof.
  induction s as [| [col v] s IH]; intros nd; cbn [fold_left].
  - apply incl_appl, incl_refl.
  - eapply incl_tran; [apply IH |]. cbn [fst snd keys map]. fold (keys s).
    apply incl_app.
    + unfold nested_setitem. eapply incl_tran; [apply keys_setitem_incl |].
      intros x Hx. apply in_app_or in Hx as [Hx | [<- | []]];
        apply in_or_app; [now left | right; now left].
    + intros x Hx. apply in_or_app. right. now right.
Qed.

Lemma keys_from_nested_dict_incl :
  forall rows nd,
    incl (keys (fold_left add_row rows nd))
         (keys nd ++ flat_map (fun r => keys (snd r)) rows).
Proof.
  induction rows as [| row rows IH]; intros nd; cbn [fold_left flat_map].
  - apply incl_appl, incl_refl.
  - eapply incl_tran; [apply IH |]. apply incl_app.
    + eapply incl_tran; [apply keys_add_row_incl |].
      rewrite List.app_assoc. apply incl_appl, incl_refl.
    + apply incl_appr, incl_appr, incl_refl.
Qed.

Lemma mapM_defined {A B} (f : A -> result B) (xs : list A) :
  (forall x, In x xs -> exists y, f x = Ok y) -> exists ys, mapM f xs = Ok ys.
Proof.
  induction xs as [| x xs IH]; intros H; cbn [mapM]; [eauto |].
  destruct (H x (or_introl eq_refl)) as (y & ->).
  destruct IH as (ys & ->); [intros; apply H; now right |].
  cbn [rbind]. eauto.
Qed.

Lemma mapM_items_payload (rows : list (string * list (string * json))) :
  mapM items (map (fun r => (fst r, JObj (snd r))) rows) = Ok rows.
Proof.
  induction rows as [| [k s] rows IH]; [reflexivity |].
  cbn [map mapM items fst snd rbind]. rewrite IH. reflexivity.
Qed.

Lemma from_dict_index_payload (row : string * list (string * json))
      (rows : list (string * list (string * json))) :
  from_dict_index (payload (row :: rows))
  = Ok (frame_of_columns (from_nested_dict (row :: rows))).
Proof.
  unfold payload, from_dict_index. cbn [map].
  change ((fst row, JObj (snd row))
          :: map (fun r => (fst r, JObj (snd r))) rows)
    with (map (fun r => (fst r, JObj (snd r))) (row :: rows)).
  rewrite mapM_items_payload. reflexivity.
Qed.

(** Rows with the one field [c] make the one column [c]. *)
Lemma from_nested_dict_single (c : string) :
  forall rows nd d,
    nd = [(c, d)] ->
    (forall r, In r rows -> keys (snd r) = [c]) ->
    exists d', fold_left add_row rows nd = [(c, d')].
Proof.
  induction rows as [| [idx s] rows IH]; intros nd d -> H; cbn [fold_left].
  - eauto.
  - pose proof (H (idx, s) (or_introl eq_refl)) as Hs. cbn [snd] in Hs.
    destruct s as [| [c' v] [| ? ?]]; try discriminate Hs.
    injection Hs as ->.
    eapply IH; [| intros; apply H; now right].
    unfold add_row, nested_setitem. cbn [fold_left fst snd lookup setitem].
    rewrite String.eqb_refl. reflexivity.
Qed.

Lemma payload_frame_index (rows : list (string * list (string * json))) :
  NoDup (keys rows) ->
  shared_first_field rows ->
  exists df0,
    from_dict_index (payload rows) = Ok df0
    /\ index df0 = map LStr (keys rows)
    /\ columns df0 = map LStr (keys (from_nested_dict rows)).
Proof.
  intros Hnd Hshared. destruct rows as [| row rows].
  - exists empty_frame. repeat split.
  - rewrite from_dict_index_payload. eexists. split; [reflexivity |].
    split; [| reflexivity].
    destruct (from_nested_dict_entered row rows Hnd Hshared) as (c0 & H).
    exact (frame_of_columns_index c0 _ _ Hnd H).
Qed.

(** C6 (as amended): for a payload whose row keys are distinct and whose
    rows all carry the field that the first row lists first (rows with the
    same fields, as the API sends them, do), the frame has exactly one row
    per top-level key, keyed by that key verbatim, in the insertion order
    of the payload.  This holds for the TIME_SERIES_DAILY frame, whose
    field names must each contain ['. '], and for the indicator frames,
    whose rows must have the one field. *)
Theorem rows_in_source_order (rows : list (string * list (string * json))) :
  NoDup (keys rows) ->
  shared_first_field rows ->
  ((forall r c, In r rows -> In c (keys (snd r)) -> occurs ". " c = true) ->
   exists df,
     time_series_daily_frame (payload rows) = Ok df
     /\ index df = map LStr (keys rows)
     /\ List.length (index df) = List.length rows)
  /\ (forall the_endpoint c,
         rows <> [] ->
         (forall r, In r rows -> keys (snd r) = [c]) ->
         exists df,
           indicator_frame the_endpoint (payload rows) = Ok df
           /\ index df = map LStr (keys rows)
           /\ List.length (index df) = List.length rows).
Proof.
  intros Hnd Hshared.
  destruct (payload_frame_index rows Hnd Hshared) as (df0 & H0 & Hi & Hc).
  assert (Hlen : List.length (map LStr (keys rows)) = List.length rows)
    by (unfold keys; now rewrite !length_map).
  split.
  - intros Hsep.
    destruct (mapM_defined rename_column (columns df0)) as (names & Hn).
    { intros x Hx. rewrite Hc in Hx.
      apply in_map_iff in Hx as (c & <- & Hx).
      apply rename_column_defined.
      apply (keys_from_nested_dict_incl rows []) in Hx. cbn [keys map app] in Hx.
      apply in_flat_map in Hx as (r & Hr & Hx). eauto. }
    eexists. split; [exact (time_series_daily_frame_intro _ _ _ H0 Hn) |].
    cbn [index]. rewrite Hi. auto.
  - intros the_endpoint c Hne Hone.
    assert (H1 : List.length (columns df0) = 1).
    { rewrite Hc. destruct rows as [| [idx s] rows]; [congruence |].
      pose proof (Hone (idx, s) (or_introl eq_refl)) as Hs. cbn [snd] in Hs.
      destruct s as [| [c' v] [| ? ?]]; try discriminate Hs.
      injection Hs as ->.
      destruct (from_nested_dict_single c rows [(c, [(idx, v)])] _ eq_refl)
        as (d' & E); [intros; apply Hone; now right |].
      unfold from_nested_dict. cbn [fold_left].
      replace (add_row [] (idx, [(c, v)])) with [(c, [(idx, v)])]
        by reflexivity.
      now rewrite E. }
    eexists. split; [exact (indicator_frame_intro _ _ _ H0 H1) |].
    cbn [apply_to_numeric index]. rewrite Hi. auto.
Qed.

Lemma rows_in_source_order_witness :
  exists df,
    time_series_daily_frame (payload two_days) = Ok df
    /\ index df = [LStr "2024-01-03"; LStr "2024-01-02"]
    /\ List.length (index df) = 2.
Proof.
  apply (proj1 (rows_in_source_order two_days
                  ltac:(repeat constructor; cbn; intuition discriminate)
                  ltac:(cbn; intros r [<- | [<- | []]]; cbn; auto))).
  intros r c [<- | [<- | []]] [<- | [<- | []]]; reflexivity.
Defined.

(** C6, the claim as stated fails: pandas gathers the row keys column by
    column, so a row that lacks the first column comes after the rows that
    have it, and a row without any field is not a row of the frame. *)
Lemma ragged_rows_are_reordered :
  time_series_daily_frame (payload ragged_days)
  = Ok (mkFrame [LStr "2024-01-03"; LStr "2024-01-01"; LStr "2024-01-02"]
                [LStr "close"; LStr "volume"]
                [[Num (405 # 4); Num (201 # 2); NaN];
                 [NaN; NaN; Num 1200]])
  /\ keys ragged_days = ["2024-01-03"; "2024-01-02"; "2024-01-01"]
  /\ time_series_daily_frame (payload hollow_days)
     = Ok (mkFrame [LStr "2024-01-01"] [LStr "close"] [[Num (201 # 2)]])
  /\ keys hollow_days = ["2024-01-02"; "2024-01-01"].
Proof. repeat split; reflexivity. Qed.

(** * Further properties *)

(** ** [str.split] against [str.join] *)

Lemma prefix_drop : forall a b : string,
  prefix a b = true -> (a ++ drop (String.length a) b)%string = b.
Proof.
  induction a as [| x a IH]; intros b H.
  - destruct b; reflexivity.
  - destruct b as [| y b]; [discriminate H |].
    cbn [prefix] in H. destruct (ascii_dec x y) as [-> | ]; [| discriminate H].
    cbn. now rewrite IH.
Qed.

Lemma join_cons_char (sep : string) (c : ascii) (p : string)
      (ps : list string) :
  join sep (String c p :: ps) = String c (join sep (p :: ps)).
Proof. destruct ps; reflexivity. Qed.

Lemma join_split_from (sep : string) :
  sep <> EmptyString ->
  forall s skip, join sep (split_from sep skip s) = drop skip s.
Proof.
  intros Hsep. induction s as [| c s IH]; intros skip.
  - destruct skip; reflexivity.
  - cbn [split_from]. destruct skip as [| n]; [| apply IH].
    destruct (prefix sep (String c s)) eqn:Hp.
    + destruct (split_from sep (String.length sep - 1) s) as [| q qs] eqn:E;
        [now apply split_from_nonnil in E |].
      change (join sep (EmptyString :: q :: qs))
        with (sep ++ join sep (q :: qs))%string.
      rewrite <- E, IH. cbn [drop].
      rewrite <- (prefix_drop _ _ Hp) at 1.
      destruct sep as [| x sep']; [congruence |].
      cbn [String.length drop].
      replace (S (String.length sep') - 1) with (String.length sep') by lia.
      reflexivity.
    + destruct (split_from_head sep s) as (p & ps & E & _).
      rewrite E, join_cons_char, <- E, IH. reflexivity.
Qed.

(** X1: joining the pieces of a split with the separator gives the string
    back, and no piece contains the separator. *)
Theorem split_then_join (sep s : string) (pieces : list string) :
  str_split sep s = Ok pieces ->
  join sep pieces = s /\ Forall (fun p => occurs sep p = false) pieces.
Proof.
  unfold str_split. destruct sep as [| x sep']; [discriminate |].
  intros [= <-]. split.
  - now rewrite join_split_from.
  - now apply split_from_pieces_free.
Qed.

Lemma split_then_join_witness :
  join ". " ["1"; "a"; "b"] = "1. a. b"
  /\ Forall (fun p => occurs ". " p = false) ["1"; "a"; "b"].
Proof. exact (split_then_join ". " "1. a. b" ["1"; "a"; "b"] eq_refl). Defined.

(** ** What the rename keeps *)

Lemma prefix_nil_l (t : string) : prefix EmptyString t = true.
Proof. destruct t; reflexivity. Qed.

(** The first ['. '] after a separator-free text is where the split cuts. *)
Lemma split_at_first : forall p t : string,
  occurs ". " p = false ->
  split_from ". " 0 (p ++ ". " ++ t) = p :: split_from ". " 0 t.
Proof.
  induction p as [| c p IH]; intros t H.
  - cbn [append split_from]. cbn [prefix].
    destruct (ascii_dec "." ".") as [_ | ne]; [| congruence].
    destruct (ascii_dec " " " ") as [_ | ne]; [| congruence].
    rewrite prefix_nil_l. reflexivity.
  - cbn [occurs] in H. apply orb_false_iff in H as [Hp Ho].
    cbn [append split_from].
    assert (Hq : prefix ". " (String c (p ++ ". " ++ t)) = false).
    { cbn [prefix] in *. destruct (ascii_dec "." c) as [<- |]; [| reflexivity].
      destruct p as [| d p]; cbn [append prefix] in *.
      - destruct (ascii_dec " " ".") as [e |]; [discriminate e | reflexivity].
      - destruct (ascii_dec " " d) as [<- |]; [| reflexivity].
        now rewrite prefix_nil_l in Hp. }
    pose proof (IH t Ho) as IHt. cbn [append] in Hq, IHt.
    now rewrite Hq, IHt.
Qed.

(** X2: of a name [p. q] the rename keeps [q], the text after the first
    ['. ']; of a name [p. q. r] it keeps [q] only, the text between the
    first and the second ['. ']: what follows is lost. *)
Theorem rename_takes_second_piece (p q r : string) :
  occurs ". " p = false ->
  occurs ". " q = false ->
  rename_column (LStr (p ++ ". " ++ q)) = Ok (LStr q)
  /\ rename_column (LStr (p ++ ". " ++ q ++ ". " ++ r)) = Ok (LStr q).
Proof.
  intros Hp Hq. unfold rename_column, str_split. cbn [rbind].
  rewrite !(split_at_first p _ Hp), (split_at_first q _ Hq).
  now rewrite (split_from_free _ _ Hq).
Qed.

Lemma rename_takes_second_piece_witness :
  rename_column (LStr "4. close") = Ok (LStr "close")
  /\ rename_column (LStr "4. close. adjusted") = Ok (LStr "close").
Proof.
  exact (rename_takes_second_piece "4" "close" "adjusted" eq_refl eq_refl).
Defined.

(** ** Payloads the branches do not survive *)

Lemma from_dict_index_columns (v : json) (df : DataFrame) :
  from_dict_index v = Ok df -> exists names, columns df = map LStr names.
Proof.
  destruct v as [| b | q | s | items | fields]; cbn [from_dict_index];
    try discriminate.
  - destruct s; discriminate.
  - destruct items; [| discriminate]. intros [= <-]. now exists [].
  - destruct fields as [| [k v0] rest]; [intros [= <-]; now exists [] |].
    destruct v0; try discriminate.
    destruct (mapM items _) as [rows | | |]; cbn [rbind]; try discriminate.
    intros [= <-]. eexists. reflexivity.
Qed.

Lemma rename_columns_raises : forall names s,
  In s names -> occurs ". " s = false ->
  rename_columns (map LStr names) = Raise IndexError.
Proof.
  unfold rename_columns.
  induction names as [| s0 names IH]; intros s Hin Hs; [destruct Hin |].
  cbn [map mapM]. destruct (occurs ". " s0) eqn:E0.
  - destruct (rename_column_defined s0 E0) as (n & ->). cbn [rbind].
    destruct Hin as [-> | Hin]; [congruence |].
    now rewrite (IH s Hin Hs).
  - now rewrite (rename_column_undefined s0 E0).
Qed.

Lemma lookup_truthy (k : string) (fields : list (string * json)) (v : json) :
  lookup k fields = Some v -> truthy (JObj fields) = true.
Proof. destruct fields; [discriminate | reflexivity]. Qed.

(** The TIME_SERIES_DAILY branch once the container is found. *)
Lemma show_time_series_daily_present (fields : list (string * json))
      (time_series : json) :
  lookup "Time Series (Daily)" fields = Some time_series ->
  show_time_series_daily (JObj fields)
  = (df <- eval (time_series_daily_frame time_series) ;;
     call (st_dataframe (head 20 df)) ;;
     close <- eval (select df "close") ;;
     call (st_line_chart close))%ui.
Proof.
  intros H. unfold show_time_series_daily.
  rewrite (lookup_truthy _ _ _ H). unfold contains, getitem.
  rewrite mem_keys_lookup, H. now rewrite !ui_bind_eval.
Qed.

(** An indicator branch once a truthy container is found. *)
Lemma show_indicator_present (the_endpoint caption : string)
      (fields : list (string * json)) (ts : json) :
  lookup ("Technical Analysis: " ++ the_endpoint) fields = Some ts ->
  truthy ts = true ->
  show_indicator the_endpoint caption (JObj fields)
  = (df <- eval (indicator_frame the_endpoint ts) ;;
     call (st_dataframe (head 20 df)) ;;
     call (st_line_chart df) ;;
     call (st_caption caption))%ui.
Proof.
  intros H Ht. unfold show_indicator.
  rewrite (lookup_truthy _ _ _ H). unfold get. rewrite H.
  rewrite ui_bind_eval. now rewrite Ht.
Qed.

(** X3: when a column name of the daily payload has no ['. '], the
    TIME_SERIES_DAILY branch raises [IndexError] at the rename, before
    anything is shown. *)
Theorem daily_name_without_separator (fields : list (string * json))
        (time_series : json) (df0 : DataFrame) (s : string) :
  lookup "Time Series (Daily)" fields = Some time_series ->
  from_dict_index time_series = Ok df0 ->
  In (LStr s) (columns df0) ->
  occurs ". " s = false ->
  show_time_series_daily (JObj fields) = ([], Raise IndexError).
Proof.
  intros Hl H0 Hin Hs. rewrite (show_time_series_daily_present _ _ Hl).
  unfold time_series_daily_frame. rewrite H0. cbn [rbind].
  destruct (from_dict_index_columns _ _ H0) as (names & E). rewrite E in *.
  apply in_map_iff in Hin as (s' & [= ->] & Hin).
  now rewrite (rename_columns_raises names s Hin Hs).
Qed.

Lemma daily_name_without_separator_witness :
  show_time_series_daily
    (JObj [("Time Series (Daily)",
            JObj [("2024-01-02", JObj [("close", JStr "100.5")])])])
  = ([], Raise IndexError).
Proof.
  apply (daily_name_without_separator
           _ (JObj [("2024-01-02", JObj [("close", JStr "100.5")])])
           (mkFrame [LStr "2024-01-02"] [LStr "close"]
                    [[Raw (JStr "100.5")]])
           "close"); try reflexivity.
  now left.
Defined.

Lemma select_no_column (df : DataFrame) (name : string) :
  no_column name df -> select df name = Raise (KeyError name).
Proof.
  unfold no_column, select. destruct df as [idx cols dat]. cbn [columns data].
  intros H.
  replace (filter (fun cd => label_is name (fst cd)) (combine cols dat))
    with (@nil (label * list cell)); [reflexivity |].
  symmetry. revert dat.
  induction H as [| l cols Hl _ IH]; intros dat; [reflexivity |].
  destruct dat as [| col dat]; [reflexivity |].
  cbn [combine filter fst]. rewrite Hl. apply IH.
Qed.

(** X4: when the daily frame has no column named ["close"] after the
    rename, the TIME_SERIES_DAILY branch shows the table and then raises
    [KeyError] at [df['close']]: no chart is drawn.  An empty container is
    such a payload: its table is the empty frame. *)
Theorem daily_without_close (fields : list (string * json))
        (time_series : json) (df : DataFrame) :
  lookup "Time Series (Daily)" fields = Some time_series ->
  time_series_daily_frame time_series = Ok df ->
  no_column "close" df ->
  show_time_series_daily (JObj fields)
  = ([st_dataframe (head 20 df)], Raise (KeyError "close")).
Proof.
  intros Hl Hf Hno. rewrite (show_time_series_daily_present _ _ Hl).
  rewrite Hf, ui_bind_eval, ui_bind_call, ui_bind_eval.
  now rewrite (select_no_column _ _ Hno).
Qed.

Lemma daily_without_close_witness :
  show_time_series_daily (JObj [("Time Series (Daily)", JObj [])])
  = ([st_dataframe empty_frame], Raise (KeyError "close")).
Proof.
  apply (daily_without_close _ (JObj []) empty_frame); try reflexivity.
  constructor.
Defined.

(** X5: when the indicator payload does not make exactly one column, an
    indicator branch raises [ValueError] at [df.columns = [the_endpoint]],
    before anything is shown. *)
Theorem indicator_with_several_columns (the_endpoint caption : string)
        (fields : list (string * json)) (ts : json) (df0 : DataFrame) :
  lookup ("Technical Analysis: " ++ the_endpoint) fields = Some ts ->
  truthy ts = true ->
  from_dict_index ts = Ok df0 ->
  List.length (columns df0) <> 1 ->
  show_indicator the_endpoint caption (JObj fields) = ([], Raise ValueError).
Proof.
  intros Hl Ht H0 Hn. rewrite (show_indicator_present _ _ _ _ Hl Ht).
  unfold indicator_frame, set_columns. rewrite H0. cbn [rbind List.length].
  apply Nat.eqb_neq in Hn. rewrite Nat.eqb_sym in Hn. now rewrite Hn.
Qed.

Lemma indicator_with_several_columns_witness :
  show_sma 20
    (JObj [("Technical Analysis: SMA",
            JObj [("2024-01-02", JObj [("SMA", JStr "1"); ("EMA", JStr "2")])])])
  = ([], Raise ValueError).
Proof.
  apply (indicator_with_several_columns
           "SMA" (sma_caption 20) _
           (JObj [("2024-01-02", JObj [("SMA", JStr "1"); ("EMA", JStr "2")])])
           (mkFrame [LStr "2024-01-02"] [LStr "SMA"; LStr "EMA"]
                    [[Raw (JStr "1")]; [Raw (JStr "2")]]));
    try reflexivity.
  discriminate.
Defined.

(** X6: a truthy response that is not a JSON object (an array, a string,
    a number) has no [get]: the GLOBAL_QUOTE, SMA and RSI branches raise
    [AttributeError] on it and show nothing. *)
Theorem response_that_is_no_object (data : json) :
  truthy data = true ->
  not_an_object data ->
  show_global_quote data = ([], Raise AttributeError)
  /\ (forall the_endpoint caption,
         show_indicator the_endpoint caption data = ([], Raise AttributeError)).
Proof.
  intros Ht Hno. unfold show_global_quote, show_indicator. rewrite Ht.
  destruct data; try contradiction; split; reflexivity.
Qed.

Lemma response_that_is_no_object_witness :
  show_global_quote (JArr [JStr "Global Quote"]) = ([], Raise AttributeError)
  /\ show_rsi (JStr "Thank you for using Alpha Vantage!")
     = ([], Raise AttributeError).
Proof.
  split.
  - exact (proj1 (response_that_is_no_object
                    (JArr [JStr "Global Quote"]) eq_refl I)).
  - exact (proj2 (response_that_is_no_object
                    (JStr "Thank you for using Alpha Vantage!") eq_refl I)
                 "RSI" rsi_caption).
Defined.

(** ** Frames are rectangular *)

Lemma rectangular_frame_of_columns nd : rectangular (frame_of_columns nd).
Proof.
  unfold rectangular, frame_of_columns. cbn [data columns index].
  unfold keys. rewrite !length_map. split; [reflexivity |].
  rewrite Forall_map. apply Forall_forall. intros cd _.
  now rewrite !length_map.
Qed.

Lemma rectangular_empty_frame : rectangular empty_frame.
Proof. split; [reflexivity | constructor]. Qed.

Lemma from_dict_index_rectangular (v : json) (df : DataFrame) :
  from_dict_index v = Ok df -> rectangular df.
Proof.
  destruct v as [| b | q | s | items | fields]; cbn [from_dict_index];
    try discriminate.
  - destruct s; discriminate.
  - destruct items; [| discriminate].
    intros [= <-]. apply rectangular_empty_frame.
  - destruct fields as [| [k v0] rest];
      [intros [= <-]; apply rectangular_empty_frame |].
    destruct v0; try discriminate.
    destruct (mapM items _) as [rows | | |]; cbn [rbind]; try discriminate.
    intros [= <-]. apply rectangular_frame_of_columns.
Qed.

Lemma set_columns_rectangular (df df' : DataFrame) (new : list label) :
  rectangular df -> set_columns df new = Ok df' -> rectangular df'.
Proof.
  intros [Hd Hc]. unfold set_columns.
  destruct (List.length new =? List.length (columns df))%nat eqn:E;
    [| discriminate].
  intros [= <-]. apply Nat.eqb_eq in E. split; cbn [data columns index];
    [congruence | assumption].
Qed.

Lemma apply_to_numeric_rectangular (df : DataFrame) :
  rectangular df -> rectangular (apply_to_numeric df).
Proof.
  intros [Hd Hc]. split; cbn [apply_to_numeric data columns index].
  - now rewrite length_map.
  - rewrite Forall_map. revert Hc. apply Forall_impl.
    intros col H. now rewrite length_map.
Qed.

Lemma head_rectangular (n : nat) (df : DataFrame) :
  rectangular df -> rectangular (head n df).
Proof.
  intros [Hd Hc]. split; cbn [head data columns index].
  - now rewrite length_map.
  - rewrite Forall_map. revert Hc. apply Forall_impl.
    intros col H. rewrite !length_firstn. now rewrite H.
Qed.

Lemma select_rectangular (df c : DataFrame) (name : string) :
  rectangular df -> select df name = Ok c -> rectangular c.
Proof.
  intros [Hd Hc] Hs. pose proof (select_spec _ _ _ Hs) as [Hi Hin].
  split.
  - unfold select in Hs. destruct (filter _ _) as [| cd cols]; [discriminate |].
    injection Hs as <-. cbn [data columns List.length map].
    now rewrite !length_map.
  - rewrite Hi. apply Forall_forall. intros col H.
    rewrite Forall_forall in Hc. auto.
Qed.

Lemma transpose_rectangular (df : DataFrame) :
  rectangular df -> rectangular (transpose df).
Proof.
  intros [Hd Hc]. split; cbn [transpose data columns index].
  - now rewrite length_map, length_seq.
  - rewrite Forall_map. apply Forall_forall. intros i _.
    now rewrite length_map.
Qed.

Lemma time_series_daily_frame_rectangular (ts : json) (df : DataFrame) :
  time_series_daily_frame ts = Ok df -> rectangular df.
Proof.
  intros H. destruct (time_series_daily_frame_inv _ _ H)
    as (df0 & names & H0 & Hn & ->).
  apply (apply_to_numeric_rectangular (mkFrame (index df0) names (data df0))).
  apply mapM_Forall2, Forall2_length_eq in Hn.
  destruct (from_dict_index_rectangular _ _ H0) as [Hd Hc].
  split; cbn [data columns index]; [congruence | assumption].
Qed.

Lemma indicator_frame_rectangular (the_endpoint : string) (ts : json)
      (df : DataFrame) :
  indicator_frame the_endpoint ts = Ok df -> rectangular df.
Proof.
  unfold indicator_frame.
  destruct (from_dict_index ts) as [df0 | | |] eqn:H0;
    cbn [rbind]; try discriminate.
  destruct (set_columns df0 _) as [df1 | | |] eqn:H1;
    cbn [rbind]; try discriminate.
  intros [= <-]. apply apply_to_numeric_rectangular.
  eapply set_columns_rectangular; [| eassumption].
  eapply from_dict_index_rectangular; eassumption.
Qed.

Lemma global_quote_frame_rectangular (quote : json) (df : DataFrame) :
  global_quote_frame quote = Ok df -> rectangular df.
Proof.
  unfold global_quote_frame, frame_of_record.
  destruct quote as [| | | | | fields]; cbn [rbind]; try discriminate.
  apply set_columns_rectangular, transpose_rectangular.
  split; cbn [data columns index].
  - unfold keys. now rewrite !length_map.
  - rewrite Forall_map. apply Forall_forall. now intros kv _.
Qed.

Lemma show_global_quote_calls (data : json) :
  forall c, In c (fst (show_global_quote data)) ->
    (exists body, c = st_error body)
    \/ c = st_json data
    \/ exists quote df,
         get data "Global Quote" (JObj []) = Ok quote
         /\ global_quote_frame quote = Ok df
         /\ c = st_table df.
Proof.
  unfold show_global_quote.
  destruct (truthy data); [| intros c H; cbn in H; contradiction].
  rewrite ui_bind_eval.
  destruct (get data _ _) as [quote | | |];
    try (intros c H; cbn in H; contradiction).
  destruct (truthy quote).
  - rewrite ui_bind_eval.
    destruct (global_quote_frame quote) as [df | | |] eqn:Ef;
      try (intros c H; cbn in H; contradiction).
    cbn. intros c [<- | []]. eauto 10.
  - cbn. intros c [<- | [<- | []]]; eauto.
Qed.

(** X7: every frame that the TIME_SERIES_DAILY, GLOBAL_QUOTE, SMA and RSI
    branches hand to Streamlit (table or chart) is rectangular: each
    column has exactly one cell per row, a row without a value for a
    column holding [NaN] there. *)
Theorem shown_frames_are_rectangular (data : json) (c : st_call)
        (df : DataFrame) :
  shown_frame c = Some df ->
  (In c (fst (show_time_series_daily data)) -> rectangular df)
  /\ (In c (fst (show_global_quote data)) -> rectangular df)
  /\ (forall the_endpoint caption,
         In c (fst (show_indicator the_endpoint caption data)) ->
         rectangular df).
Proof.
  intros Hc. split; [| split].
  - intros H. destruct (show_time_series_daily_calls _ _ H)
      as [[? ->] | [-> | (ts & df1 & _ & Hf & [-> | (ch & Hs & ->)])]];
      try discriminate Hc; injection Hc as <-.
    + apply head_rectangular. eapply time_series_daily_frame_rectangular.
      eassumption.
    + eapply select_rectangular; [| eassumption].
      eapply time_series_daily_frame_rectangular. eassumption.
  - intros H. destruct (show_global_quote_calls _ _ H)
      as [[? ->] | [-> | (q & df1 & _ & Hf & ->)]];
      try discriminate Hc; injection Hc as <-.
    eapply global_quote_frame_rectangular. eassumption.
  - intros the_endpoint caption H.
    destruct (show_indicator_calls _ _ _ _ H)
      as [[? ->] | [-> | [-> | (ts & df1 & _ & Hf & [-> | ->])]]];
      try discriminate Hc; injection Hc as <-.
    + apply head_rectangular. eapply indicator_frame_rectangular. eassumption.
    + eapply indicator_frame_rectangular. eassumption.
Qed.

Lemma shown_frames_are_rectangular_witness :
  rectangular (mkFrame [LStr "2024-01-03"; LStr "2024-01-01"; LStr "2024-01-02"]
                       [LStr "close"]
                       [[Num (405 # 4); Num (201 # 2); NaN]]).
Proof.
  apply (proj1 (shown_frames_are_rectangular
                  (JObj [("Time Series (Daily)", payload ragged_days)])
                  (st_line_chart
                     (mkFrame [LStr "2024-01-03"; LStr "2024-01-01";
                               LStr "2024-01-02"]
                              [LStr "close"]
                              [[Num (405 # 4); Num (201 # 2); NaN]]))
                  _ eq_refl)).
  right. left. reflexivity.
Defined.

Lemma firstn_whole {A} (n : nat) (l : list A) :
  List.length l <= n -> firstn n l = l.
Proof. intros H. now apply firstn_all2. Qed.

Lemma head_whole (n : nat) (df : DataFrame) :
  rectangular df -> List.length (index df) <= n -> head n df = df.
Proof.
  intros [_ Hc] Hn. destruct df as [idx cols dat]. unfold head.
  cbn [index columns data] in *. rewrite (firstn_whole n idx Hn).
  replace (map (firstn n) dat) with dat; [reflexivity |].
  induction Hc as [| col dat Hcol _ IH]; [reflexivity |].
  cbn [map]. rewrite firstn_whole by lia. now rewrite <- IH.
Qed.

(** X8: when the frame of a TIME_SERIES_DAILY or indicator branch has at
    most 20 rows, [head(20)] is the frame itself: the table shows every
    row. *)
Theorem short_tables_are_whole :
  (forall ts df,
      time_series_daily_frame ts = Ok df ->
      List.length (index df) <= 20 -> head 20 df = df)
  /\ (forall the_endpoint ts df,
         indicator_frame the_endpoint ts = Ok df ->
         List.length (index df) <= 20 -> head 20 df = df).
Proof.
  split.
  - intros ts df H. apply head_whole.
    eapply time_series_daily_frame_rectangular. eassumption.
  - intros the_endpoint ts df H. apply head_whole.
    eapply indicator_frame_rectangular. eassumption.
Qed.

Lemma short_tables_are_whole_witness : head 20 close_frame = close_frame.
Proof.
  apply (proj1 short_tables_are_whole close_payload close_frame eq_refl).
  cbn. lia.
Defined.

(** ** The frame of rows with the same fields *)



























(** ** Fetching, then the branch *)

Lemma ui_bind_ret {A B} (a : A) (f : A -> ui B) (t : list st_call) :
  ui_bind (t, Ok a) f = (t ++ fst (f a), snd (f a)).
Proof. reflexivity. Qed.

Lemma fetch_failed (requests_get : string -> attempt json)
      (my_url spin_text err : string) :
  requests_get my_url = Fails (RequestException err) ->
  fetch_alpha_vantage_data requests_get my_url spin_text
  = ([st_spinner ("Working on it... " ++ spin_text); ouch err], Ok JNull).
Proof.
  intros H. unfold fetch_alpha_vantage_data. now rewrite H.
Qed.

Lemma fetch_yields (requests_get : string -> attempt json)
      (my_url spin_text : string) (j : json) :
  requests_get my_url = Yields j ->
  fetch_alpha_vantage_data requests_get my_url spin_text
  = ([st_spinner ("Working on it... " ++ spin_text)], Ok j).
Proof.
  intros H. unfold fetch_alpha_vantage_data. now rewrite H.
Qed.

Lemma falsy_shows_nothing (j : json) :
  truthy j = false ->
  show_time_series_daily j = ([], Ok tt)
  /\ show_global_quote j = ([], Ok tt)
  /\ forall the_endpoint caption,
       show_indicator the_endpoint caption j = ([], Ok tt).
Proof.
  intros H. unfold show_time_series_daily, show_global_quote, show_indicator.
  now rewrite H.
Qed.

(** X11: when the request fails with a [RequestException], each of the
    TIME_SERIES_DAILY, GLOBAL_QUOTE, SMA and RSI branches shows its
    subheader, the spinner and the one error of the fetch helper, and ends
    normally: the [None] it gets back passes no truthiness test, so no
    second message, no raw payload and no table follow. *)
Theorem failed_fetch_is_reported_once
        (requests_get : string -> attempt json) (w : sidebar)
        (api_key err : string) :
  (forall url, requests_get url = Fails (RequestException err)) ->
  forall branch, In branch fetching_branches ->
    exists header spin_text,
      branch requests_get w api_key
      = ([st_subheader header; st_spinner spin_text; ouch err], Ok tt).
Proof.
  intros H branch Hin.
  destruct (falsy_shows_nothing JNull eq_refl) as (Hd & Hq & Hi).
  cbn [fetching_branches In] in Hin.
  destruct Hin as [<- | [<- | [<- | [<- | []]]]];
    [unfold time_series_daily | unfold global_quote | unfold sma | unfold rsi];
    rewrite ui_bind_call, (fetch_failed _ _ _ err (H _)), ui_bind_ret;
    rewrite ?Hd, ?Hq, ?Hi; eexists _, _; reflexivity.
Qed.

Lemma failed_fetch_is_reported_once_witness :
  exists header spin_text,
    global_quote offline ibm_daily "demo"
    = ([st_subheader header; st_spinner spin_text; ouch "offline"], Ok tt).
Proof.
  apply (failed_fetch_is_reported_once offline ibm_daily "demo" "offline").
  - reflexivity.
  - right. left. reflexivity.
Defined.

(** X12: when the body of the response is falsy ([null], [{}], [[]], [0],
    [false], the empty string), each of the four branches shows its
    subheader and the spinner and nothing else: no message tells the user
    that there is no data. *)
Theorem falsy_body_is_not_reported
        (requests_get : string -> attempt json) (w : sidebar)
        (api_key : string) (body : json) :
  (forall url, requests_get url = Yields body) ->
  truthy body = false ->
  forall branch, In branch fetching_branches ->
    exists header spin_text,
      branch requests_get w api_key
      = ([st_subheader header; st_spinner spin_text], Ok tt).
Proof.
  intros H Hb branch Hin.
  destruct (falsy_shows_nothing body Hb) as (Hd & Hq & Hi).
  cbn [fetching_branches In] in Hin.
  destruct Hin as [<- | [<- | [<- | [<- | []]]]];
    [unfold time_series_daily | unfold global_quote | unfold sma | unfold rsi];
    rewrite ui_bind_call, (fetch_yields _ _ _ body (H _)), ui_bind_ret;
    rewrite ?Hd, ?Hq, ?Hi; eexists _, _; reflexivity.
Qed.

Lemma falsy_body_is_not_reported_witness :
  exists header spin_text,
    rsi (fun _ => Yields (JObj [])) ibm_daily "demo"
    = ([st_subheader header; st_spinner spin_text], Ok tt).
Proof.
  apply (falsy_body_is_not_reported (fun _ => Yields (JObj [])) ibm_daily
           "demo" (JObj [])).
  - reflexivity.
  - reflexivity.
  - right. right. right. left. reflexivity.
Defined.

(** X13: an exception of the request that is no [RequestException] is not
    caught by the fetch helper: it leaves each of the four branches right
    after the spinner, with nothing reported. *)
Theorem other_fetch_errors_propagate
        (requests_get : string -> attempt json) (w : sidebar)
        (api_key : string) (e : exn) :
  (forall url, requests_get url = Fails e) ->
  (forall err, e <> RequestException err) ->
  forall branch, In branch fetching_branches ->
    exists header spin_text,
      branch requests_get w api_key
      = ([st_subheader header; st_spinner spin_text], Raise e).
Proof.
  intros H He branch Hin.
  assert (Hf : forall url spin_text,
             fetch_alpha_vantage_data requests_get url spin_text
             = ([st_spinner ("Working on it... " ++ spin_text)], Raise e)).
  { intros url spin_text. unfold fetch_alpha_vantage_data. rewrite H.
    destruct e; try reflexivity. now destruct (He err). }
  cbn [fetching_branches In] in Hin.
  destruct Hin as [<- | [<- | [<- | [<- | []]]]];
    [unfold time_series_daily | unfold global_quote | unfold sma | unfold rsi];
    rewrite ui_bind_call, Hf; eexists _, _; reflexivity.
Qed.

Lemma other_fetch_errors_propagate_witness :
  exists header spin_text,
    sma (fun _ => Fails ValueError) ibm_daily "demo"
    = ([st_subheader header; st_spinner spin_text], Raise ValueError).
Proof.
  apply (other_fetch_errors_propagate (fun _ => Fails ValueError) ibm_daily
           "demo" ValueError).
  - reflexivity.
  - discriminate.
  - right. right. left. reflexivity.
Defined.

(** ** The menu and the dispatch *)




(** ** Responses as the API sends them *)








(** ** The OVERVIEW branch *)

(** X17: the OVERVIEW branch shows the company table only when the
    response is an object whose ["Symbol"] is the requested (upper-cased)
    symbol.  Then the table has one row per field of the response and one
    column ["Value"], and is followed by the rule, the caption and the
    description, or the text ["No description available."] when the
    response has none.  For a non-empty object with another symbol, or
    none, the branch shows its error and the raw payload instead. *)
Theorem overview_checks_the_symbol (sym : string) (f : string * json)
        (fs : list (string * json)) :
  (forall description,
      lookup "Symbol" (f :: fs) = Some (JStr sym) ->
      lookup "Description" (f :: fs) = Some (JStr description)
      \/ (lookup "Description" (f :: fs) = None
          /\ description = "No description available.") ->
      show_overview sym (JObj (f :: fs))
      = ([st_table (mkFrame (map LStr (keys (f :: fs))) [LStr "Value"]
                            [map (fun kv => Raw (snd kv)) (f :: fs)]);
          st_markdown "***";
          st_caption "Company Description:";
          st_markdown description], Ok tt))
  /\ (lookup "Symbol" (f :: fs) <> Some (JStr sym) ->
      show_overview sym (JObj (f :: fs))
      = (overview_error ++ [st_json (JObj (f :: fs))], Ok tt)).
Proof.
  split.
  - intros description Hs Hd. unfold show_overview, overview_accepts.
    rewrite truthy_object. unfold get at 1. rewrite Hs. cbn [rbind equals_string].
    rewrite String.eqb_refl, ui_bind_eval, ui_bind_eval.
    rewrite global_quote_frame_record.
    assert (E : get (JObj (f :: fs)) "Description"
                    (JStr "No description available.")
                = Ok (JStr description)).
    { unfold get. destruct Hd as [Hd | [Hd ->]]; now rewrite Hd. }
    rewrite E. reflexivity.
  - intros Hs. unfold show_overview, overview_accepts.
    rewrite truthy_object. unfold get.
    assert (E : equals_string
                  match lookup "Symbol" (f :: fs) with
                  | Some x => x
                  | None => JNull
                  end sym = false).
    { destruct (lookup "Symbol" (f :: fs)) as [[| | | t | |] |];
        try reflexivity.
      cbn [equals_string]. apply String.eqb_neq. congruence. }
    destruct (lookup "Symbol" (f :: fs)); cbn [rbind] in *;
      rewrite E, ui_bind_eval; reflexivity.
Qed.

Lemma overview_checks_the_symbol_witness :
  show_overview "MSFT" (JObj [("Symbol", JStr "MSFT"); ("PERatio", JStr "35.1")])
  = ([st_table (mkFrame [LStr "Symbol"; LStr "PERatio"] [LStr "Value"]
                        [[Raw (JStr "MSFT"); Raw (JStr "35.1")]]);
      st_markdown "***";
      st_caption "Company Description:";
      st_markdown "No description available."], Ok tt)
  /\ show_overview "MSFT" (JObj [("Symbol", JStr "IBM")])
     = (overview_error ++ [st_json (JObj [("Symbol", JStr "IBM")])], Ok tt).
Proof.
  split.
  - apply (proj1 (overview_checks_the_symbol
                    "MSFT" ("Symbol", JStr "MSFT") [("PERatio", JStr "35.1")])
                 "No description available." eq_refl).
    right. split; reflexivity.
  - apply (proj2 (overview_checks_the_symbol "MSFT" ("Symbol", JStr "IBM") [])).
    discriminate.
Defined.

(** X18: unlike the other branches, the OVERVIEW branch has no guard on a
    falsy response in its else-branch: after a failed request the user
    sees two errors, the one of the fetch helper and the branch's own, and
    no raw payload. *)
Theorem overview_reports_a_failed_fetch_twice
        (requests_get : string -> attempt json) (w : sidebar)
        (api_key err : string) :
  (forall url, requests_get url = Fails (RequestException err)) ->
  exists header spin_text,
    overview requests_get w api_key
    = ([st_subheader header; st_spinner spin_text; ouch err] ++ overview_error,
       Ok tt).
Proof.
  intros H. unfold overview.
  rewrite ui_bind_call, (fetch_failed _ _ _ err (H _)), ui_bind_ret.
  eexists _, _. reflexivity.
Qed.

Lemma overview_reports_a_failed_fetch_twice_witness :
  exists header spin_text,
    overview offline ibm_daily "demo"
    = ([st_subheader header; st_spinner spin_text; ouch "offline"]
       ++ overview_error, Ok tt).
Proof.
  apply (overview_reports_a_failed_fetch_twice offline ibm_daily "demo"
           "offline").
  reflexivity.
Defined.

(** ** The INCOME_STATEMENT branch *)

Lemma show_income_statement_present (fund_sym : string)
      (fields : list (string * json)) (reports : json) :
  lookup "annualReports" fields = Some reports ->
  show_income_statement fund_sym (JObj fields)
  = (df_income <- eval (frame_of_records reports) ;;
     df_income <- eval (set_index df_income "fiscalDateEnding") ;;
     call (st_table (transpose df_income)) ;;
     n <- eval (len reports) ;;
     call (st_caption (income_caption n)))%ui.
Proof.
  intros H. unfold show_income_statement.
  rewrite (lookup_truthy _ _ _ H). unfold contains, getitem.
  rewrite mem_keys_lookup, H. now rewrite !ui_bind_eval.
Qed.

Lemma set_index_no_column (df : DataFrame) (name : string) :
  no_column name df -> set_index df name = Raise (no_such_column name).
Proof.
  unfold no_column, set_index. destruct df as [idx cols dat].
  cbn [columns data]. intros H.
  replace (filter (fun cd => label_is name (fst cd)) (combine cols dat))
    with (@nil (label * list cell)); [reflexivity |].
  symmetry. revert dat.
  induction H as [| l cols Hl _ IH]; intros dat; [reflexivity |].
  destruct dat as [| col dat]; [reflexivity |].
  cbn [combine filter fst]. rewrite Hl. apply IH.
Qed.

(** X19: in the INCOME_STATEMENT branch a non-empty response without
    ["annualReports"] gets the error naming the ticker and the raw payload;
    a response whose reports make a frame without a ["fiscalDateEnding"]
    column (an empty list of reports is one) makes [set_index] raise
    [KeyError], and nothing is shown. *)
Theorem income_statement_without_reports (fund_sym : string)
        (f : string * json) (fs : list (string * json)) :
  (absent "annualReports" (f :: fs) ->
   show_income_statement fund_sym (JObj (f :: fs))
   = (income_error fund_sym ++ [st_json (JObj (f :: fs))], Ok tt))
  /\ (forall reports df,
         lookup "annualReports" (f :: fs) = Some reports ->
         frame_of_records reports = Ok df ->
         no_column "fiscalDateEnding" df ->
         show_income_statement fund_sym (JObj (f :: fs))
         = ([], Raise (no_such_column "fiscalDateEnding"))).
Proof.
  split.
  - intros H. unfold show_income_statement. rewrite truthy_object.
    unfold contains. rewrite mem_keys_lookup, H. reflexivity.
  - intros reports df Hl Hf Hno.
    rewrite (show_income_statement_present _ _ _ Hl), Hf, ui_bind_eval.
    now rewrite (set_index_no_column _ _ Hno).
Qed.

Lemma income_statement_without_reports_witness :
  show_income_statement "MSFT" error_payload
  = (income_error "MSFT" ++ [st_json error_payload], Ok tt)
  /\ show_income_statement "MSFT" (JObj [("annualReports", JArr [])])
     = ([], Raise (no_such_column "fiscalDateEnding")).
Proof.
  split.
  - apply (proj1 (income_statement_without_reports
                    "MSFT" ("Error Message", JStr "invalid symbol") [])).
    reflexivity.
  - apply (proj2 (income_statement_without_reports
                    "MSFT" ("annualReports", JArr []) [])
                 (JArr []) empty_frame); try reflexivity.
    constructor.
Defined.

Lemma mapM_as_record (records : list (list (string * json))) :
  mapM as_record (map JObj records) = Ok records.
Proof.
  induction records as [| d records IH]; [reflexivity |].
  cbn [map mapM as_record rbind]. now rewrite IH.
Qed.

Lemma union_indexes_same (fields : list string)
      (d : list (string * json)) (records : list (list (string * json))) :
  NoDup fields ->
  (forall d', In d' (d :: records) -> keys d' = fields) ->
  union_indexes (map keys (d :: records)) = fields.
Proof.
  intros Hnd Hu. unfold union_indexes. cbn [map fold_left].
  rewrite (Hu d (or_introl eq_refl)).
  rewrite (unique_extend_fresh fields []) by exact Hnd. cbn [app].
  apply union_indexes_known. rewrite Forall_map. apply Forall_forall.
  intros d' Hd'. rewrite (Hu d') by now right. apply incl_refl.
Qed.

Lemma lookup_of_key {V} (c : string) (d : list (string * V)) :
  In c (keys d) -> exists v, lookup c d = Some v.
Proof.
  intros H. apply mem_In in H. rewrite mem_keys_lookup in H.
  destruct (lookup c d); [eauto | discriminate].
Qed.

Lemma cell_of_key (c : string) (d : list (string * json)) :
  In c (keys d) ->
  match lookup c d with Some v => Raw v | None => NaN end = Raw (value c d).
Proof.
  intros H. unfold value. now destruct (lookup_of_key c d H) as (v & ->).
Qed.

Lemma frame_of_records_uniform (fields : list string)
      (records : list (list (string * json))) :
  records <> [] -> NoDup fields ->
  (forall d, In d records -> keys d = fields) ->
  frame_of_records (JArr (map JObj records))
  = Ok (mkFrame (map (fun i => LInt (Z.of_nat i))
                     (seq 0 (List.length records)))
                (map LStr fields)
                (map (fun c => map (fun d => Raw (value c d)) records) fields)).
Proof.
  intros Hr Hnd Hu. destruct records as [| d records]; [congruence |].
  set (rs := d :: records) in *. unfold frame_of_records.
  change (map JObj rs) with (JObj d :: map JObj records). cbv beta iota.
  change (JObj d :: map JObj records) with (map JObj rs).
  rewrite mapM_as_record. cbn [rbind]. cbv zeta. subst rs.
  rewrite (union_indexes_same fields) by assumption.
  do 2 f_equal. apply map_ext_in. intros c Hc. apply map_ext_in.
  intros d' Hd'. apply cell_of_key. now rewrite (Hu d' Hd').
Qed.

Lemma combine_map_same {A B C} (f : A -> B) (g : A -> C) (l : list A) :
  combine (map f l) (map g l) = map (fun a => (f a, g a)) l.
Proof. induction l; cbn; congruence. Qed.

Lemma filter_map_comm {A B} (f : A -> B) (p : B -> bool) (l : list A) :
  filter p (map f l) = map f (filter (fun a => p (f a)) l).
Proof.
  induction l as [| a l IH]; [reflexivity |].
  cbn [map filter]. destruct (p (f a)); cbn [map]; now rewrite IH.
Qed.

Lemma filter_the_one (name : string) (fields : list string) :
  NoDup fields -> In name fields ->
  filter (fun c => String.eqb name c) fields = [name].
Proof.
  induction fields as [| c fields IH]; intros Hnd Hin; [destruct Hin |].
  inversion Hnd as [| ? ? Hc Hf]; subst. cbn [filter].
  destruct (String.eqb_spec name c) as [-> | Hne].
  - f_equal. clear IH Hin Hnd Hf.
    induction fields as [| x fields IH]; [reflexivity |]. cbn [filter].
    destruct (String.eqb_spec c x) as [-> | Hx].
    + exfalso. apply Hc. now left.
    + apply IH. intros H. apply Hc. now right.
  - destruct Hin as [-> | Hin]; [congruence | now apply IH].
Qed.

Lemma mapM_cell_label (records : list (list (string * json))) :
  dated records ->
  mapM cell_label (map (fun d => Raw (value "fiscalDateEnding" d)) records)
  = Ok (map LStr (map date_of records)).
Proof.
  unfold dated. induction records as [| d records IH]; intros H;
    [reflexivity |].
  cbn [map mapM]. unfold value at 1, date_of at 1.
  destruct (H d (or_introl eq_refl)) as (s & ->). cbn [cell_label rbind].
  rewrite IH by (intros; apply H; now right). reflexivity.
Qed.

Lemma set_index_uniform (idx : list label) (fields : list string)
      (records : list (list (string * json))) :
  NoDup fields -> In "fiscalDateEnding" fields -> dated records ->
  set_index
    (mkFrame idx (map LStr fields)
             (map (fun c => map (fun d => Raw (value c d)) records) fields))
    "fiscalDateEnding"
  = Ok (mkFrame (map LStr (map date_of records))
                (map LStr (other_fields fields))
                (map (fun c => map (fun d => Raw (value c d)) records)
                     (other_fields fields))).
Proof.
  intros Hnd Hin Hd. unfold set_index. cbn [columns data]. cbv zeta.
  rewrite combine_map_same, !filter_map_comm. cbn [fst label_is].
  rewrite (filter_the_one _ _ Hnd Hin). cbn [map].
  rewrite (mapM_cell_label _ Hd). cbn [rbind].
  fold (other_fields fields). now rewrite !map_map.
Qed.

Lemma transpose_table {A B} (f : A -> B -> cell) (xs : list A) :
  forall ys : list B,
    map (fun i => map (fun col => nth i col NaN)
                      (map (fun x => map (f x) ys) xs))
        (seq 0 (List.length ys))
    = map (fun y => map (fun x => f x y) xs) ys.
Proof.
  induction ys as [| y ys IH]; [reflexivity |].
  cbn [List.length seq map]. f_equal.
  - rewrite map_map. reflexivity.
  - rewrite <- seq_shift, map_map, <- IH. apply map_ext. intros i.
    rewrite !map_map. reflexivity.
Qed.

(** X20: on a response as the API sends it (a non-empty list of reports
    with the same distinct fields, each dated by a string under
    ["fiscalDateEnding"]), the INCOME_STATEMENT branch shows one table and
    one caption and ends normally.  The table has a column per report,
    labelled by its date, in the order of the list, and a row per field
    other than the date; the cell of a field and a report is the value as
    received; the caption counts the reports. *)
Theorem income_statement_table (fund_sym : string)
        (response : list (string * json)) (fields : list string)
        (records : list (list (string * json))) :
  lookup "annualReports" response = Some (JArr (map JObj records)) ->
  records <> [] -> NoDup fields ->
  (forall d, In d records -> keys d = fields) ->
  dated records ->
  show_income_statement fund_sym (JObj response)
  = ([st_table (statement_table (other_fields fields) records);
      st_caption (income_caption (List.length records))], Ok tt).
Proof.
  intros Hl Hr Hnd Hu Hd.
  assert (Hin : In "fiscalDateEnding" fields).
  { destruct records as [| d records]; [congruence |].
    destruct (Hd d (or_introl eq_refl)) as (s & Hs).
    rewrite <- (Hu d (or_introl eq_refl)). apply mem_In.
    rewrite mem_keys_lookup. now rewrite Hs. }
  rewrite (show_income_statement_present _ _ _ Hl).
  rewrite (frame_of_records_uniform fields records Hr Hnd Hu), ui_bind_eval.
  rewrite (set_index_uniform _ _ _ Hnd Hin Hd), ui_bind_eval.
  rewrite ui_bind_call. unfold len. rewrite length_map, ui_bind_eval.
  unfold transpose, statement_table. cbn [index columns data fst snd call].
  rewrite !length_map, <- (transpose_table (fun c d => Raw (value c d))).
  reflexivity.
Qed.

Lemma income_statement_table_witness :
  show_income_statement "MSFT"
    (JObj [("symbol", JStr "MSFT");
           ("annualReports",
            JArr [JObj [("fiscalDateEnding", JStr "2023-06-30");
                        ("netIncome", JStr "72361000000")];
                  JObj [("fiscalDateEnding", JStr "2022-06-30");
                        ("netIncome", JStr "72738000000")]])])
  = ([st_table (mkFrame [LStr "netIncome"]
                        [LStr "2023-06-30"; LStr "2022-06-30"]
                        [[Raw (JStr "72361000000")];
                         [Raw (JStr "72738000000")]]);
      st_caption "Showing the last 2 annual income statements."], Ok tt).
Proof.
  apply (income_statement_table "MSFT" _ ["fiscalDateEnding"; "netIncome"]
           [[("fiscalDateEnding", JStr "2023-06-30");
             ("netIncome", JStr "72361000000")];
            [("fiscalDateEnding", JStr "2022-06-30");
             ("netIncome", JStr "72738000000")]]); try reflexivity.
  - discriminate.
  - repeat constructor; cbn; intuition discriminate.
  - intros d [<- | [<- | []]]; reflexivity.
  - intros d [<- | [<- | []]]; eexists; reflexivity.
Defined.
